(** * SmartEdU academic IR prototype: a shallow embedding of [prototype_app.py]

    The development follows the source file top to bottom:
    - [PyStr]: the Python string operations the code relies on
      ([str.lower], [str.strip], [in], slicing, [Path.suffix]);
    - [Frame]: the pandas frames held by the module ([melt], [iterrows],
      [to_dict], [Series.get]) and the layout detection of lines 63-68;
    - [Merge]: the left [merge] with the courses metadata (lines 76-81);
    - [Corpus]: the folder of unstructured documents, [list_student_docs]
      and [extract_text_from_file];
    - [Search]: the body of [index] up to the rendering of the page, with
      the [seen_docs] set and the result lists threaded explicitly.

    Strings are byte strings; case folding and whitespace are the ASCII
    ones.  The paths [UNSTRUCTURED_DIR / student_id] and [folder / filename]
    are modelled for identifiers and file names that name a single path
    component ([Corpus.plain_name]); [melt] is the one of pandas 2.0 and
    later. *)

From Stdlib Require Import String Ascii List Bool Arith Lia Sorted.
From stdpp Require Import base decidable list strings gmap sets.

Import ListNotations.
Local Open Scope string_scope.
Local Open Scope list_scope.

(* ===================================================================== *)
(** ** Python strings *)
(* ===================================================================== *)

Module PyStr.

(** [c.isupper()] on ASCII letters. *)
Definition is_upper (a : ascii) : bool :=
  let n := nat_of_ascii a in (65 <=? n)%nat && (n <=? 90)%nat.

Definition lower_ascii (a : ascii) : ascii :=
  if is_upper a then ascii_of_nat (nat_of_ascii a + 32) else a.

(** [s.lower()] *)
Fixpoint lower (s : string) : string :=
  match s with
  | EmptyString => EmptyString
  | String a s' => String (lower_ascii a) (lower s')
  end.

(** [c.isspace()]: tab, line feed, vertical tab, form feed, carriage
    return, the four separators 0x1c-0x1f and the blank. *)
Definition is_space (a : ascii) : bool :=
  let n := nat_of_ascii a in
  ((9 <=? n)%nat && (n <=? 13)%nat) || ((28 <=? n)%nat && (n <=? 32)%nat).

Fixpoint lstrip (s : string) : string :=
  match s with
  | EmptyString => EmptyString
  | String a s' => if is_space a then lstrip s' else s
  end.

Fixpoint rstrip (s : string) : string :=
  match s with
  | EmptyString => EmptyString
  | String a s' =>
      match rstrip s' with
      | EmptyString => if is_space a then EmptyString else String a EmptyString
      | r => String a r
      end
  end.

(** [s.strip()] *)
Definition strip (s : string) : string := rstrip (lstrip s).

(** [sub in s] *)
Fixpoint contains (sub s : string) : bool :=
  String.prefix sub s ||
  match s with
  | EmptyString => false
  | String _ s' => contains sub s'
  end.

(** [bool(s)]: a string is truthy when it is not empty. *)
Definition truthy (s : string) : bool :=
  match s with EmptyString => false | _ => true end.

(** [s[:n]] *)
Definition take (n : nat) (s : string) : string := String.substring 0 n s.

(** [s.rfind(".")] *)
Fixpoint rfind_dot (s : string) : option nat :=
  match s with
  | EmptyString => None
  | String a s' =>
      match rfind_dot s' with
      | Some i => Some (S i)
      | None => if Ascii.eqb a "."%char then Some 0 else None
      end
  end.

(** [Path.suffix] of a file name: the part from the last dot on, unless that
    dot is the first or the last character of the name. *)
Definition path_suffix (name : string) : string :=
  match rfind_dot name with
  | Some i =>
      if (0 <? i)%nat && (i <? String.length name - 1)%nat
      then String.substring i (String.length name - i) name
      else EmptyString
  | None => EmptyString
  end.

End PyStr.

(* ===================================================================== *)
(** ** Exceptions *)
(* ===================================================================== *)

(** The outcome of a Python block that may raise. *)
Inductive exn (A : Type) : Type :=
  | Ok (a : A)
  | Raise.

Arguments Ok {A} a.
Arguments Raise {A}.

Definition exn_bind {A B : Type} (m : exn A) (k : A -> exn B) : exn B :=
  match m with
  | Ok a => k a
  | Raise => Raise
  end.

(** [try: body  except Exception: handler] *)
Definition try_except {A : Type} (body : exn A) (handler : A) : A :=
  match body with
  | Ok a => a
  | Raise => handler
  end.

(* ===================================================================== *)
(** ** pandas frames and the load-time normalisation (lines 59-81) *)
(* ===================================================================== *)

Module Frame.

(** A cell of a frame.  [read_csv(dtype=str).fillna("")] only yields [Str];
    [NaN] is the missing-value marker pandas puts where a left merge finds
    no partner. *)
Inductive cell : Type :=
  | Str (s : string)
  | NaN.

#[global] Instance cell_eq_dec : EqDecision cell.
Proof. solve_decision. Defined.

(** [str(v)] *)
Definition py_str (c : cell) : string :=
  match c with
  | Str s => s
  | NaN => "nan"
  end.

Record DataFrame : Type := mkFrame {
  columns : list string;
  rows : list (list cell)
}.

(** [pd.DataFrame()] *)
Definition empty_frame : DataFrame := mkFrame [] [].

(** [df.empty]: some axis has length zero. *)
Definition df_empty (df : DataFrame) : bool :=
  (length (columns df) =? 0)%nat || (length (rows df) =? 0)%nat.

(** Position of the first column called [c]. *)
Fixpoint col_index (c : string) (cols : list string) : option nat :=
  match cols with
  | [] => None
  | c' :: cols' =>
      if String.eqb c c' then Some 0%nat
      else option_map S (col_index c cols')
  end.

(** [row.get(c, default)] on a row of a frame with columns [cols]. *)
Definition row_get (cols : list string) (r : list cell) (c : string)
    (default : cell) : cell :=
  match col_index c cols with
  | Some i => nth i r default
  | None => default
  end.

(** [row.to_dict()]: the record of a row, in column order. *)
Definition to_dict (cols : list string) (r : list cell)
    : list (string * cell) :=
  combine cols r.

(** The records of a frame, as [iterrows] visits them. *)
Definition to_records (df : DataFrame) : list (list (string * cell)) :=
  map (to_dict (columns df)) (rows df).

(** ["student_id" in df.columns] *)
Definition has_column (c : string) (df : DataFrame) : bool :=
  existsb (String.eqb c) (columns df).

(** The value columns of [melt]: all the columns but [id_var]. *)
Definition value_vars (id_var : string) (df : DataFrame) : list string :=
  List.filter (fun c => negb (String.eqb c id_var)) (columns df).

Definition melt_row (cols : list string) (id_var c : string)
    (r : list cell) : list cell :=
  [row_get cols r id_var NaN; Str c; row_get cols r c NaN].

(** The rows [melt] produces: value column by value column, and inside one
    column row by row. *)
Definition melt_rows (df : DataFrame) (id_var : string)
    : list (list cell) :=
  flat_map (fun c => map (melt_row (columns df) id_var c) (rows df))
    (value_vars id_var df).

(** [df.melt(id_vars=id_var, var_name=var_name, value_name=value_name)],
    as pandas 2.0 and later do it: a frame that already has a column called
    [value_name] is refused with a ValueError before anything is reshaped. *)
Definition melt (df : DataFrame) (id_var var_name value_name : string)
    : exn DataFrame :=
  if has_column value_name df then Raise
  else Ok (mkFrame [id_var; var_name; value_name] (melt_rows df id_var)).

(** The heuristic of line 64. *)
Definition is_wide (grades_df : DataFrame) : bool :=
  negb (df_empty grades_df) && has_column "student_id" grades_df
  && (2 <? length (columns grades_df))%nat.

(** Lines 63-68: [grades_long_df].  The statement is outside any [try]: when
    [melt] raises, the module is not loaded. *)
Definition grades_long_of (grades_df : DataFrame) : exn DataFrame :=
  if is_wide grades_df
  then melt grades_df "student_id" "course_id" "score"
  else Ok grades_df.

(** The long form the specification asks of a wide table: for every column
    but the identity one, and for every row, the record of the student, the
    column and the cell. *)
Definition pivot_records (df : DataFrame) : list (list (string * cell)) :=
  flat_map
    (fun c =>
       map (fun r =>
              [("student_id", row_get (columns df) r "student_id" NaN);
               ("course_id", Str c);
               ("score", row_get (columns df) r c NaN)])
         (rows df))
    (value_vars "student_id" df).

End Frame.

Module Merge.
Import Frame.

Definition drop_at {A : Type} (i : nat) (l : list A) : list A :=
  firstn i l ++ skipn (S i) l.

Definition cell_eqb (a b : cell) : bool := bool_decide (a = b).

Fixpoint has_dup (l : list string) : bool :=
  match l with
  | [] => false
  | c :: l' => existsb (String.eqb c) l' || has_dup l'
  end.

(** The labels of one side of a merge: a column that is not the key and
    also occurs on the other side gets the suffix of its side. *)
Definition suffix_labels (sfx key : string) (other mine : list string)
    : list string :=
  map (fun c =>
         if negb (String.eqb c key) && existsb (String.eqb c) other
         then String.append c sfx else c) mine.

(** The output rows of one left row: one per partner on the right, in the
    order of the right frame; with no partner, the left row padded with
    missing values. *)
Definition join_row (i j width : nat) (right_rows : list (list cell))
    (lr : list cell) : list (list cell) :=
  match List.filter (fun rr => cell_eqb (nth j rr NaN) (nth i lr NaN))
          right_rows with
  | [] => [lr ++ repeat NaN width]
  | partners => map (fun rr => lr ++ drop_at j rr) partners
  end.

(** [left.merge(right, on=key, how="left")].  It raises when the key is
    missing on a side (KeyError) and when the suffixes make two labels of a
    side collide (MergeError). *)
Definition merge_left (left right : DataFrame) (key : string)
    : exn DataFrame :=
  match col_index key (columns left), col_index key (columns right) with
  | Some i, Some j =>
      let llabels :=
        suffix_labels "_x" key (columns right) (columns left) in
      let rlabels :=
        suffix_labels "_y" key (columns left) (drop_at j (columns right)) in
      if has_dup llabels || has_dup rlabels then Raise
      else Ok (mkFrame (llabels ++ rlabels)
                 (flat_map (join_row i j (length rlabels) (rows right))
                    (rows left)))
  | _, _ => Raise
  end.

(** Lines 76-81: the courses metadata is merged into [grades_long_df] when
    both frames have a [course_id] column; a failing merge leaves
    [grades_long_df] as it was. *)
Definition merge_courses (grades_long_df courses_df : DataFrame)
    : DataFrame :=
  if has_column "course_id" grades_long_df
     && has_column "course_id" courses_df
  then try_except
         (exn_bind (merge_left grades_long_df courses_df "course_id") Ok)
         grades_long_df
  else grades_long_df.

(** Lines 63-81 together. *)
Definition load_grades (grades_df courses_df : DataFrame)
    : exn DataFrame :=
  exn_bind (grades_long_of grades_df) (fun grades_long_df =>
  Ok (merge_courses grades_long_df courses_df)).

End Merge.

(* ===================================================================== *)
(** ** The corpus of unstructured documents (lines 42-56, 87-96) *)
(* ===================================================================== *)

Module Corpus.

(** What [p.extract_text()] does on one page of a PDF. *)
Inductive page : Type :=
  | PageText (s : string)
  | PageNone
  | PageRaises.

(** A regular file, as the extractor observes it: [as_text] is what
    [read_text(encoding="utf-8", errors="ignore")] returns ([None] when it
    raises), [as_pdf] the pages [PdfReader] finds ([None] when it raises). *)
Record file : Type := mkFile {
  file_name : string;
  as_text : option string;
  as_pdf : option (list page)
}.

Inductive dirent : Type :=
  | IsFile (f : file)
  | IsDir (name : string).

Definition dirent_name (e : dirent) : string :=
  match e with
  | IsFile f => file_name f
  | IsDir n => n
  end.

(** An entry of [UNSTRUCTURED_DIR]. *)
Inductive root_entry : Type :=
  | RootFile (f : file)
  | RootDir (name : string) (entries : list dirent).

Definition root_name (e : root_entry) : string :=
  match e with
  | RootFile f => file_name f
  | RootDir n _ => n
  end.

Definition as_dirent (e : root_entry) : dirent :=
  match e with
  | RootFile f => IsFile f
  | RootDir n _ => IsDir n
  end.

(** [UNSTRUCTURED_DIR]: [None] when it does not exist. *)
Definition corpus : Type := option (list root_entry).

(** [sorted(...)] on the entries of one directory: insertion sort on the
    names. *)
Section Sorted.
Context {A : Type} (name_of : A -> string).

Fixpoint insert_sorted (x : A) (l : list A) : list A :=
  match l with
  | [] => [x]
  | y :: l' =>
      if String.leb (name_of x) (name_of y) then x :: l
      else y :: insert_sorted x l'
  end.

Definition sorted (l : list A) : list A :=
  fold_right insert_sorted [] l.

End Sorted.

Definition files_of (entries : list dirent) : list file :=
  flat_map (fun e => match e with IsFile f => [f] | IsDir _ => [] end)
    (sorted dirent_name entries).

(** A string that names at most one path component of a POSIX path: there
    is no separator in it and it is neither ["."] nor [".."].  Joined to a directory, such
    a string names an entry of that directory, or the directory itself
    when it is empty; any other string can lead out of the directory or
    below one of its entries. *)
Definition plain_name (s : string) : bool :=
  negb (PyStr.contains "/" s)
  && negb (String.eqb s ".") && negb (String.eqb s "..").

(** [UNSTRUCTURED_DIR / sid], when it exists and is a directory, for an
    identifier that is a [plain_name]: the empty identifier names the root
    itself, any other one the entry of the root with that name. *)
Definition resolve_folder (c : corpus) (sid : string)
    : option (list dirent) :=
  match c with
  | None => None
  | Some root =>
      if String.eqb sid "" then Some (map as_dirent root)
      else
        match List.find (fun e => String.eqb (root_name e) sid) root with
        | Some (RootDir _ entries) => Some entries
        | _ => None
        end
  end.

(** [list_student_docs]: the file names of the student's folder, sorted;
    the argument is stripped first. *)
Definition list_student_docs (c : corpus) (student_id : string)
    : list string :=
  let sid := PyStr.strip student_id in
  match resolve_folder c sid with
  | Some entries => map file_name (files_of entries)
  | None => []
  end.

(** The pages loop: [text += (p.extract_text() or "")]. *)
Fixpoint pages_text (text : string) (pages : list page) : exn string :=
  match pages with
  | [] => Ok text
  | PageText s :: ps => pages_text (String.append text s) ps
  | PageNone :: ps => pages_text (String.append text "") ps
  | PageRaises :: _ => Raise
  end.

Definition of_option {A : Type} (o : option A) : exn A :=
  match o with
  | Some a => Ok a
  | None => Raise
  end.

(** The body of the [try] of [extract_text_from_file]: [Ok (Some s)] when a
    [return s] is reached, [Ok None] when control falls out of the block.
    [pdf_reader] says whether PyPDF2 could be imported. *)
Definition extract_body (pdf_reader : bool) (f : file)
    : exn (option string) :=
  let suffix := PyStr.lower (PyStr.path_suffix (file_name f)) in
  if String.eqb suffix ".txt" then
    exn_bind (of_option (as_text f)) (fun s => Ok (Some s))
  else if String.eqb suffix ".pdf" && pdf_reader then
    exn_bind (of_option (as_pdf f)) (fun pages =>
    exn_bind (pages_text "" pages) (fun text => Ok (Some text)))
  else Ok None.

Definition extract_text_from_file (pdf_reader : bool) (f : file) : string :=
  match try_except (extract_body pdf_reader f) (Some "") with
  | Some s => s
  | None => ""
  end.

End Corpus.

(* ===================================================================== *)
(** ** The query handler [index] (lines 98-199) *)
(* ===================================================================== *)

Module Search.
Import Frame Corpus.

(** An element of [results["documents"]]. *)
Record hit : Type := mkHit {
  student_id : string;
  filename : string;
  preview : string
}.

(** [results]: the three lists of the dictionary of line 102. *)
Record results : Type := mkResults {
  students : list (list (string * cell));
  courses : list (list (string * cell));
  documents : list hit
}.

Definition empty_results : results := mkResults [] [] [].

(** The key under which a document is remembered in [seen_docs]. *)
Definition key_of (h : hit) : string * string := (student_id h, filename h).

(** The mutable state of one request: [results] and [seen_docs]. *)
Record state : Type := mkState {
  res : results;
  seen_docs : gset (string * string)
}.

(** What the module holds once it is loaded. *)
Record env : Type := mkEnv {
  students_df : DataFrame;
  grades_long_df : DataFrame;
  unstructured : corpus;
  pdf_reader : bool
}.

Definition student_document : string := "(student document)".
Definition no_extractable_text : string := "(no extractable text)".

(** [if key not in seen_docs: seen_docs.add(key); results["documents"].append(h)] *)
Definition add_if_unseen (h : hit) (st : state) : state :=
  if decide (key_of h ∈ seen_docs st) then st
  else mkState
         (mkResults (students (res st)) (courses (res st))
            (documents (res st) ++ [h]))
         ({[key_of h]} ∪ seen_docs st).

(** [str(row.get(name, "")).strip()] *)
Definition field (cols : list string) (r : list cell) (name : string)
    : string :=
  PyStr.strip (py_str (row_get cols r name (Str ""))).

(** The test of line 116. *)
Definition student_matches (q : string) (cols : list string)
    (r : list cell) : bool :=
  String.eqb q (PyStr.lower (field cols r "student_id"))
  || PyStr.contains q (PyStr.lower (field cols r "name"))
  || PyStr.contains q (PyStr.lower (field cols r "programme"))
  || PyStr.contains q (PyStr.lower (field cols r "email")).

(** Lines 121-130: the documents of a matching student. *)
Definition add_student_docs (c : corpus) (sid : string) (st : state)
    : state :=
  fold_left (fun st d => add_if_unseen (mkHit sid d student_document) st)
    (list_student_docs c sid) st.

(** One iteration of the loop of line 109. *)
Definition student_step (c : corpus) (q : string) (cols : list string)
    (st : state) (r : list cell) : state :=
  if student_matches q cols r then
    add_student_docs c (field cols r "student_id")
      (mkState
         (mkResults (students (res st) ++ [to_dict cols r])
            (courses (res st)) (documents (res st)))
         (seen_docs st))
  else st.

Definition students_pass (e : env) (q : string) (st : state) : state :=
  fold_left (student_step (unstructured e) q (columns (students_df e)))
    (rows (students_df e)) st.

(** The test of line 139. *)
Definition course_matches (q : string) (cols : list string)
    (r : list cell) : bool :=
  PyStr.contains q (PyStr.lower (field cols r "student_id"))
  || PyStr.contains q (PyStr.lower (field cols r "course_id"))
  || PyStr.contains q (PyStr.lower (field cols r "title"))
  || PyStr.contains q (PyStr.lower (field cols r "lecturer")).

Definition course_step (q : string) (cols : list string) (st : state)
    (r : list cell) : state :=
  if course_matches q cols r then
    mkState
      (mkResults (students (res st))
         (courses (res st) ++ [to_dict cols r]) (documents (res st)))
      (seen_docs st)
  else st.

(** Lines 133-140. *)
Definition courses_pass (e : env) (q : string) (st : state) : state :=
  if df_empty (grades_long_df e) then st
  else fold_left (course_step q (columns (grades_long_df e)))
         (rows (grades_long_df e)) st.

(** [text[:300] if text else "(no extractable text)"] *)
Definition preview_or_marker (text : string) : string :=
  if PyStr.truthy text then PyStr.take 300 text else no_extractable_text.

(** Lines 153-188: one file of one student folder. *)
Definition doc_step (pdf : bool) (q sid_folder : string) (st : state)
    (f : file) : state :=
  if String.eqb q (PyStr.lower sid_folder) then
    add_if_unseen (mkHit sid_folder (file_name f) student_document) st
  else if PyStr.contains q (PyStr.lower (file_name f)) then
    add_if_unseen
      (mkHit sid_folder (file_name f)
         (preview_or_marker (extract_text_from_file pdf f))) st
  else
    let text := extract_text_from_file pdf f in
    if PyStr.truthy text && PyStr.contains q (PyStr.lower text) then
      add_if_unseen (mkHit sid_folder (file_name f) (PyStr.take 300 text)) st
    else st.

(** Lines 146-150: one entry of [UNSTRUCTURED_DIR]. *)
Definition folder_step (pdf : bool) (q : string) (st : state)
    (e : root_entry) : state :=
  match e with
  | RootFile _ => st
  | RootDir sid_folder entries =>
      fold_left (doc_step pdf q sid_folder) (files_of entries) st
  end.

(** Lines 145-188. *)
Definition documents_pass (e : env) (q : string) (st : state) : state :=
  match unstructured e with
  | None => st
  | Some root =>
      fold_left (folder_step (pdf_reader e) q) (sorted root_name root) st
  end.

(** Lines 190-199. *)
Definition apply_filters (filter_type : string) (r : results) : results :=
  if String.eqb filter_type "students" then
    mkResults (students r) [] []
  else if String.eqb filter_type "courses" then
    mkResults [] (courses r) []
  else if String.eqb filter_type "docs" then
    mkResults [] [] (documents r)
  else r.

(** The three matching passes, in the order of the source. *)
Definition search (e : env) (q : string) : state :=
  documents_pass e q
    (courses_pass e q
       (students_pass e q (mkState empty_results ∅))).

(** [request.args.get(name, fallback)] *)
Definition args_get (arg : option string) (fallback : string) : string :=
  match arg with
  | Some v => v
  | None => fallback
  end.

(** [index], up to the rendering: the three lists handed to the template. *)
Definition index (e : env) (q_arg filter_arg : option string) : results :=
  let query := PyStr.strip (args_get q_arg "") in
  let filter_type := args_get filter_arg "all" in
  if PyStr.truthy query then
    let q := PyStr.lower (PyStr.strip query) in
    apply_filters filter_type (res (search e q))
  else empty_results.

(** The hits of a state. *)
Definition docs_of (st : state) : list hit := documents (res st).

(** The invariant of one request: no key occurs twice among the hits, and
    the key of every hit is in [seen_docs]. *)
Definition seen_inv (st : state) : Prop :=
  List.NoDup (map key_of (docs_of st))
  /\ forall h, In h (docs_of st) -> key_of h ∈ seen_docs st.

(** [st'] has the hits of [st], in the same order, followed by new hits
    that all satisfy [P]. *)
Definition grows (P : hit -> Prop) (st st' : state) : Prop :=
  exists new, docs_of st' = docs_of st ++ new /\ Forall P new.

End Search.

(* ===================================================================== *)
(** ** A small deployment used in the examples *)
(* ===================================================================== *)

Module Scenario.
Import Frame Merge Corpus Search.

(** [grades.csv] in wide layout: [student_id,CS101,CS102] / [S1,88,91]. *)
Definition wide_grades : DataFrame :=
  mkFrame ["student_id"; "CS101"; "CS102"] [[Str "S1"; Str "88"; Str "91"]].

(** [grades.csv] in long layout: one row per student and course. *)
Definition long_grades : DataFrame :=
  mkFrame ["student_id"; "course_id"; "mark"]
    [[Str "S1"; Str "CS101"; Str "88"]].

(** [courses.json] describing CS101 only. *)
Definition courses_meta : DataFrame :=
  mkFrame ["course_id"; "title"; "lecturer"]
    [[Str "CS101"; Str "Algorithms"; Str "Dr Hopper"]].

Definition students_tbl : DataFrame :=
  mkFrame ["student_id"; "name"; "programme"; "email"]
    [[Str "S1"; Str "Ada Lovelace"; Str "Mathematics"; Str "al@uni.example"]].

Definition notes : file :=
  mkFile "ada_notes.txt" (Some "midterm review by Ada") None.

Definition essay : file :=
  mkFile "s1_essay.txt" (Some "an essay") None.

Definition docs : corpus :=
  Some [RootDir "S1" [IsFile notes; IsFile essay]].

(** A wide table whose metrics are a score and an attendance rate. *)
Definition metrics : DataFrame :=
  mkFrame ["student_id"; "score"; "attendance"]
    [[Str "S1"; Str "88"; Str "95"]].

(** [grades_long_df] after line 66, for [wide_grades]. *)
Definition melted_grades : DataFrame :=
  mkFrame ["student_id"; "course_id"; "score"]
    [ [Str "S1"; Str "CS101"; Str "88"];
      [Str "S1"; Str "CS102"; Str "91"] ].

(** [grades_long_df] after line 79, for [wide_grades] and [courses_meta]. *)
Definition merged_grades : DataFrame :=
  mkFrame ["student_id"; "course_id"; "score"; "title"; "lecturer"]
    [ [Str "S1"; Str "CS101"; Str "88"; Str "Algorithms"; Str "Dr Hopper"];
      [Str "S1"; Str "CS102"; Str "91"; NaN; NaN] ].

Definition deployment : env :=
  mkEnv students_tbl merged_grades docs true.

(** The same deployment with an empty [students.csv]. *)
Definition docs_only : env :=
  mkEnv empty_frame merged_grades docs true.

End Scenario.

(* ===================================================================== *)
(** ** Loading the tables (lines 21-29) *)
(* ===================================================================== *)

Module Loader.
Import Frame.

(** What the file system and [pd.read_csv(path, dtype=str)] make of a
    path: the file is absent, the parser raises, or it returns a frame in
    which an empty field is the missing-value marker. *)
Inductive csv_source : Type :=
  | CsvMissing
  | CsvRaises (message : string)
  | CsvParsed (df : DataFrame).

Definition fill_cell (v : string) (c : cell) : cell :=
  match c with
  | NaN => Str v
  | Str s => Str s
  end.

(** [df.fillna(v)] *)
Definition fillna (v : string) (df : DataFrame) : DataFrame :=
  mkFrame (columns df) (map (map (fill_cell v)) (rows df)).

(** [load_csv_safe]: the frame, and the lines printed on [sys.stderr]. *)
Definition load_csv_safe (path : string) (src : csv_source)
    : DataFrame * list string :=
  match src with
  | CsvMissing =>
      (empty_frame, [String.append "[WARN] CSV not found: " path])
  | CsvRaises message =>
      (empty_frame,
       [String.append "[ERROR] Failed to read CSV "
          (String.append path (String.append ": " message))])
  | CsvParsed df => (fillna "" df, [])
  end.

(** A frame without missing values. *)
Definition no_nan (df : DataFrame) : Prop :=
  Forall (Forall (fun c => c <> NaN)) (rows df).

(** A frame whose rows all have one cell per column. *)
Definition rectangular (df : DataFrame) : Prop :=
  Forall (fun r => length r = length (columns df)) (rows df).

End Loader.

(* ===================================================================== *)
(** ** The download route [files] (lines 321-329) *)
(* ===================================================================== *)

Module Download.
Import Corpus.

(** The answers of the route: one of its two 404 bodies, the file sent as
    an attachment, or the 404 that [send_from_directory] raises for a path
    that is no regular file. *)
Inductive response : Type :=
  | NotFound (body : string)
  | Attachment (f : file)
  | Abort404.

(** [folder / filename] inside a directory with the given entries, then
    [send_from_directory], for a file name that is a [plain_name]: the
    name is looked up among the entries of the folder. *)
Definition send_from (entries : list dirent) (filename : string)
    : response :=
  if String.eqb filename "" then Abort404
  else
    match List.find (fun e => String.eqb (dirent_name e) filename) entries
    with
    | None => NotFound "File not found"
    | Some (IsFile f) => Attachment f
    | Some (IsDir _) => Abort404
    end.

(** [files(student_id, filename)], for an identifier and a file name that
    are each a [plain_name].  A path below a regular file does not
    exist. *)
Definition files (c : corpus) (student_id filename : string) : response :=
  match c with
  | None => NotFound "Student folder not found"
  | Some root =>
      if String.eqb student_id "" then
        send_from (map as_dirent root) filename
      else
        match List.find (fun e => String.eqb (root_name e) student_id) root
        with
        | None => NotFound "Student folder not found"
        | Some (RootFile _) =>
            if String.eqb filename "" then Abort404
            else NotFound "File not found"
        | Some (RootDir _ entries) => send_from entries filename
        end
  end.

(** The names of a directory are pairwise distinct and not empty. *)
Definition names_ok {A : Type} (name_of : A -> string) (l : list A)
    : Prop :=
  List.NoDup (map name_of l) /\ Forall (fun x => name_of x <> "") l.

Definition corpus_ok (c : corpus) : Prop :=
  match c with
  | None => True
  | Some root =>
      names_ok root_name root
      /\ Forall (fun e =>
                   match e with
                   | RootFile _ => True
                   | RootDir _ entries => names_ok dirent_name entries
                   end) root
  end.

End Download.

(* ===================================================================== *)
(** ** Predicates on the state of a request *)
(* ===================================================================== *)

Module Coverage.
Import Frame Corpus Search.

(** Some hit of the state has the key [k]. *)
Definition covered (k : string * string) (st : state) : Prop :=
  exists h, In h (docs_of st) /\ key_of h = k.

(** Every key of [seen_docs] has its hit. *)
Definition seen_sound (st : state) : Prop :=
  forall k, k ∈ seen_docs st -> covered k st.

(** The test of lines 157, 168 and 181 on one file of one folder. *)
Definition doc_matches (pdf : bool) (q sid_folder : string) (f : file)
    : bool :=
  String.eqb q (PyStr.lower sid_folder)
  || PyStr.contains q (PyStr.lower (file_name f))
  || (PyStr.truthy (extract_text_from_file pdf f)
      && PyStr.contains q (PyStr.lower (extract_text_from_file pdf f))).

(** What [p.extract_text() or ""] contributes for a page that does not
    raise. *)
Definition page_text (p : page) : string :=
  match p with
  | PageText s => s
  | PageNone => ""
  | PageRaises => ""
  end.

(** The string does not start with a blank. *)
Definition no_leading_space (s : string) : Prop :=
  match s with
  | EmptyString => True
  | String a _ => PyStr.is_space a = false
  end.

End Coverage.

(** More of the example deployment. *)
Module Samples.
Import Frame Corpus Search.

Definition raw_students : DataFrame :=
  mkFrame ["student_id"; "name"; "programme"; "email"]
    [[Str "S1"; Str "Ada Lovelace"; NaN; Str "al@uni.example"];
     [Str "S2"; Str "Alan Turing"; Str "Computing"; NaN]].

Definition report : file :=
  mkFile "report.pdf" None
    (Some [PageText "Lab "; PageNone; PageText "report"]).

Definition library : corpus :=
  Some [RootFile (mkFile "README.txt" (Some "read me") None);
        RootDir "S2" [IsFile report; IsDir "drafts";
                      IsFile Scenario.essay];
        RootDir "S1" [IsFile Scenario.notes]].

Definition campus : env :=
  mkEnv Scenario.students_tbl Scenario.merged_grades library true.

End Samples.

Import PyStr Frame Merge Corpus Search Loader Download Coverage.

(* ===================================================================== *)
(** ** Normalisation of the grades table *)
(* ===================================================================== *)

Section Normalisation.

Lemma flat_map_nil_body {A B : Type} (l : list A) :
  flat_map (fun _ : A => @nil B) l = [].
Proof. induction l as [|a l IH]; simpl; auto. Qed.

Lemma map_flat_map {A B C : Type} (f : B -> C) (g : A -> list B)
    (l : list A) :
  map f (flat_map g l) = flat_map (fun a => map f (g a)) l.
Proof.
  induction l as [|a l IH]; simpl; [reflexivity|].
  rewrite map_app, IH. reflexivity.
Qed.

Lemma to_records_melt_rows (df : DataFrame) :
  to_records
    (mkFrame ["student_id"; "course_id"; "score"] (melt_rows df "student_id"))
  = pivot_records df.
Proof.
  unfold to_records, melt_rows, pivot_records. simpl.
  rewrite map_flat_map.
  apply flat_map_ext. intros c.
  rewrite map_map. reflexivity.
Qed.

Lemma is_wide_spec (df : DataFrame) :
  is_wide df = true <->
  rows df <> [] /\ has_column "student_id" df = true
  /\ 2 < length (columns df).
Proof.
  unfold is_wide, df_empty.
  rewrite !andb_true_iff, negb_true_iff, orb_false_iff.
  rewrite !Nat.eqb_neq, Nat.ltb_lt.
  split.
  - intros [[[_ Hr] Hc] Hn]. repeat split; auto.
    intros E. apply Hr. rewrite E. reflexivity.
  - intros (Hr & Hc & Hn). repeat split; auto; try lia.
    destruct (rows df); [congruence | simpl; lia].
Qed.

Lemma grades_long_of_not_wide (df : DataFrame) :
  is_wide df = false -> grades_long_of df = Ok df.
Proof. unfold grades_long_of. intros ->. reflexivity. Qed.

Lemma grades_long_of_wide (df : DataFrame) :
  is_wide df = true ->
  grades_long_of df = melt df "student_id" "course_id" "score".
Proof. unfold grades_long_of. intros ->. reflexivity. Qed.

Lemma melt_without_clash (df : DataFrame) (a b c : string) :
  has_column c df = false ->
  melt df a b c = Ok (mkFrame [a; b; c] (melt_rows df a)).
Proof. unfold melt. intros ->. reflexivity. Qed.

Lemma melt_with_clash (df : DataFrame) (a b c : string) :
  has_column c df = true -> melt df a b c = Raise.
Proof. unfold melt. intros ->. reflexivity. Qed.

Lemma no_rows_not_wide (df : DataFrame) :
  rows df = [] -> is_wide df = false.
Proof.
  intros Hr. destruct (is_wide df) eqn:W; [|reflexivity].
  apply is_wide_spec in W. destruct W as [W _]. congruence.
Qed.

(** C1 (the code departs from it).  The wide table
    [student_id,score,attendance] with the row [S1,88,95] has a
    [student_id] column and three columns, so line 66 melts it into a value
    column called [score]; the table already has a column of that name,
    [melt] raises, and no record is produced: so it is for every table with
    rows, a [student_id] column, more than two columns and a column called
    [score].  Without a column of that name the table is pivoted: the
    records are, for every column but [student_id] and every row, the
    triple (student, column, cell), and when the table has rows the frame
    is the melted one.  The table [student_id,CS101,CS102] with the row [S1,88,91]
    gives exactly (S1,CS101,88) and (S1,CS102,91).  A table without
    [student_id] or with at most two columns is kept as it is. *)
Theorem C1_wide_table_with_score_column_raises :
  (has_column "student_id" Scenario.metrics = true
   /\ 2 < length (columns Scenario.metrics)
   /\ grades_long_of Scenario.metrics = Raise)
  /\ (forall df : DataFrame,
        has_column "student_id" df = true ->
        2 < length (columns df) ->
        rows df <> [] ->
        has_column "score" df = true ->
        grades_long_of df = Raise)
  /\ (forall df : DataFrame,
        has_column "student_id" df = true ->
        2 < length (columns df) ->
        has_column "score" df = false ->
        exists out,
          grades_long_of df = Ok out
          /\ to_records out = pivot_records df
          /\ (rows df <> [] ->
              melt df "student_id" "course_id" "score" = Ok out))
  /\ (exists out,
        grades_long_of Scenario.wide_grades = Ok out
        /\ to_records out
           = [ [("student_id", Str "S1"); ("course_id", Str "CS101");
                ("score", Str "88")];
               [("student_id", Str "S1"); ("course_id", Str "CS102");
                ("score", Str "91")] ])
  /\ (forall df : DataFrame,
        has_column "student_id" df = false \/ length (columns df) <= 2 ->
        grades_long_of df = Ok df).
Proof.
  split; [|split; [|split; [|split]]].
  - split; [reflexivity|]. split; [simpl; lia | reflexivity].
  - intros df Hc Hn Hr Hs.
    rewrite grades_long_of_wide by (apply is_wide_spec; auto).
    apply melt_with_clash. exact Hs.
  - intros df Hc Hn Hs.
    destruct (rows df) as [|r rs] eqn:Hr.
    + exists df. split; [|split; [|congruence]].
      * apply grades_long_of_not_wide, no_rows_not_wide. exact Hr.
      * unfold to_records, pivot_records. rewrite Hr. simpl.
        symmetry. apply flat_map_nil_body.
    + assert (W : is_wide df = true).
      { apply is_wide_spec. rewrite Hr. repeat split; auto; congruence. }
      exists (mkFrame ["student_id"; "course_id"; "score"]
                (melt_rows df "student_id")).
      rewrite (grades_long_of_wide df W).
      rewrite (melt_without_clash df _ _ _ Hs).
      split; [reflexivity|]. split; [|reflexivity].
      apply to_records_melt_rows.
  - exists Scenario.melted_grades. split; reflexivity.
  - intros df H. apply grades_long_of_not_wide.
    destruct (is_wide df) eqn:W; [|reflexivity].
    apply is_wide_spec in W. destruct W as (_ & Hc & Hn).
    destruct H as [H|H]; [congruence | lia].
Qed.

Lemma C1_wide_table_with_score_column_raises_witness :
  (has_column "student_id" Scenario.metrics = true
   /\ 2 < length (columns Scenario.metrics)
   /\ rows Scenario.metrics <> []
   /\ has_column "score" Scenario.metrics = true
   /\ grades_long_of Scenario.metrics = Raise)
  /\ (has_column "student_id" Scenario.wide_grades = true
      /\ 2 < length (columns Scenario.wide_grades)
      /\ has_column "score" Scenario.wide_grades = false
      /\ exists out,
           grades_long_of Scenario.wide_grades = Ok out
           /\ to_records out = pivot_records Scenario.wide_grades).
Proof.
  destruct C1_wide_table_with_score_column_raises
    as (_ & Hraise & Hpivot & _ & _).
  split.
  - split; [reflexivity|]. split; [simpl; lia|].
    split; [discriminate|]. split; [reflexivity|].
    apply (Hraise Scenario.metrics);
      [reflexivity | simpl; lia | discriminate | reflexivity].
  - split; [reflexivity|]. split; [simpl; lia|]. split; [reflexivity|].
    destruct (Hpivot Scenario.wide_grades eq_refl ltac:(simpl; lia) eq_refl)
      as (out & E & R & _).
    exists out. split; assumption.
Defined.

(** C2 (the code departs from it).  A grades table that is already long,
    with a column for the student, one for the course and one for the mark,
    has a [student_id] column and more than two columns, so line 64 sends
    it to [melt]: the one record (S1,CS101,88) becomes the two records
    (S1,"course_id",CS101) and (S1,"mark",88), which is no reordering of
    the input. *)
Theorem C2_long_table_is_melted :
  grades_long_of Scenario.long_grades
  = Ok (mkFrame ["student_id"; "course_id"; "score"]
          [ [Str "S1"; Str "course_id"; Str "CS101"];
            [Str "S1"; Str "mark"; Str "88"] ])
  /\ ~ Permutation
         (to_records
            (mkFrame ["student_id"; "course_id"; "score"]
               [ [Str "S1"; Str "course_id"; Str "CS101"];
                 [Str "S1"; Str "mark"; Str "88"] ]))
         (to_records Scenario.long_grades).
Proof.
  split; [reflexivity|].
  intros P. apply Permutation_length in P. simpl in P. discriminate.
Qed.

End Normalisation.

(* ===================================================================== *)
(** ** Text extraction *)
(* ===================================================================== *)

Section Extraction.

Lemma extract_of_body (pdf : bool) (f : file) :
  extract_text_from_file pdf f
  = match extract_body pdf f with
    | Ok (Some s) => s
    | Ok None => ""
    | Raise => ""
    end.
Proof.
  unfold extract_text_from_file, try_except.
  destruct (extract_body pdf f) as [[s|]|]; reflexivity.
Qed.

Lemma pages_text_raises (pages : list page) :
  forall text, In PageRaises pages -> pages_text text pages = Raise.
Proof.
  induction pages as [|p ps IH]; intros text Hin; [destruct Hin|].
  destruct Hin as [->|Hin]; [reflexivity|].
  destruct p; simpl; auto.
Qed.

(** C4.  [extract_text_from_file] returns a string for every file and
    never lets an exception out: when the body of its [try] raises (the
    read fails, the PDF reader rejects the file, a page fails), when the
    suffix is neither [.txt] nor [.pdf], and when the suffix is [.pdf] but
    no PDF reader is installed, the string is empty; otherwise it is the
    text the body returned. *)
Theorem C4_extract_text_is_total (pdf : bool) (f : file) :
  exists s : string,
    extract_text_from_file pdf f = s
    /\ (extract_body pdf f = Raise -> s = "")
    /\ (extract_body pdf f = Ok None -> s = "")
    /\ (forall t, extract_body pdf f = Ok (Some t) -> s = t)
    /\ (lower (path_suffix (file_name f)) <> ".txt" ->
        lower (path_suffix (file_name f)) <> ".pdf" -> s = "")
    /\ (lower (path_suffix (file_name f)) = ".pdf" -> pdf = false -> s = "")
    /\ (lower (path_suffix (file_name f)) = ".txt" ->
        as_text f = None -> s = "")
    /\ (lower (path_suffix (file_name f)) = ".pdf" ->
        as_pdf f = None -> s = "")
    /\ (forall pages, lower (path_suffix (file_name f)) = ".pdf" ->
        as_pdf f = Some pages -> In PageRaises pages -> s = "").
Proof.
  exists (extract_text_from_file pdf f). split; [reflexivity|].
  rewrite extract_of_body. unfold extract_body.
  set (sfx := lower (path_suffix (file_name f))).
  repeat split.
  - intros ->. reflexivity.
  - intros ->. reflexivity.
  - intros t ->. reflexivity.
  - intros H1 H2.
    apply String.eqb_neq in H1. apply String.eqb_neq in H2.
    rewrite H1, H2. reflexivity.
  - intros H1 ->. rewrite H1. reflexivity.
  - intros H1 H2. rewrite H1, H2. reflexivity.
  - intros H1 H2. rewrite H1, H2. simpl. destruct pdf; reflexivity.
  - intros pages H1 H2 H3. rewrite H1, H2. simpl.
    destruct pdf; [|reflexivity]. simpl.
    rewrite (pages_text_raises pages "" H3). reflexivity.
Qed.

Lemma C4_extract_text_is_total_witness :
  extract_text_from_file true (mkFile "scan.pdf" None None) = ""
  /\ extract_text_from_file false
       (mkFile "paper.PDF" None (Some [PageText "abstract"])) = ""
  /\ extract_text_from_file true
       (mkFile "photo.jpeg" (Some "JFIF") None) = "".
Proof.
  split; [|split].
  - destruct (C4_extract_text_is_total true (mkFile "scan.pdf" None None))
      as (s & E & _ & _ & _ & _ & _ & _ & H & _).
    rewrite E. apply H; reflexivity.
  - destruct (C4_extract_text_is_total false
                (mkFile "paper.PDF" None (Some [PageText "abstract"])))
      as (s & E & _ & _ & _ & _ & H & _).
    rewrite E. apply H; reflexivity.
  - destruct (C4_extract_text_is_total true
                (mkFile "photo.jpeg" (Some "JFIF") None))
      as (s & E & _ & _ & _ & H & _).
    rewrite E. apply H; vm_compute; discriminate.
Defined.

End Extraction.

(* ===================================================================== *)
(** ** The empty query and the filter *)
(* ===================================================================== *)

Section QueryAndFilter.

(** A string made of blanks only strips to the empty string. *)
Lemma lstrip_blank (s : string) :
  forallb is_space (list_ascii_of_string s) = true -> lstrip s = "".
Proof.
  induction s as [|a s IH]; simpl; [reflexivity|].
  intros H. apply andb_true_iff in H. destruct H as [Ha Hs].
  rewrite Ha. auto.
Qed.

Lemma strip_blank (s : string) :
  forallb is_space (list_ascii_of_string s) = true -> strip s = "".
Proof. intros H. unfold strip. rewrite (lstrip_blank s H). reflexivity. Qed.

(** C5.  When the [q] argument is absent, empty or blank, so that nothing
    is left of it after [strip], the three lists handed to the template are
    empty, whatever the loaded data and the filter are. *)
Theorem C5_empty_query_returns_nothing (e : env)
    (q_arg filter_arg : option string) :
  strip (args_get q_arg "") = "" ->
  index e q_arg filter_arg = empty_results.
Proof. unfold index. intros ->. reflexivity. Qed.

Lemma C5_empty_query_returns_nothing_witness :
  index Scenario.deployment (Some "   ") (Some "all") = empty_results
  /\ index Scenario.deployment None None = empty_results.
Proof.
  split.
  - apply (C5_empty_query_returns_nothing Scenario.deployment
             (Some "   ") (Some "all")).
    apply strip_blank. reflexivity.
  - apply (C5_empty_query_returns_nothing Scenario.deployment None None).
    reflexivity.
Defined.

(** C8.  The filter ["students"] empties the courses and the documents,
    ["courses"] empties the students and the documents, ["docs"] empties the
    students and the courses; the list that is kept is the one the matcher
    produced. *)
Theorem C8_filter_clears_the_other_lists :
  (forall r : results,
      apply_filters "students" r = mkResults (students r) [] []
      /\ apply_filters "courses" r = mkResults [] (courses r) []
      /\ apply_filters "docs" r = mkResults [] [] (documents r))
  /\ (forall (e : env) (q_arg : option string),
        index e q_arg (Some "students")
        = mkResults (students (index e q_arg None)) [] []
        /\ index e q_arg (Some "courses")
           = mkResults [] (courses (index e q_arg None)) []
        /\ index e q_arg (Some "docs")
           = mkResults [] [] (documents (index e q_arg None))).
Proof.
  split.
  - intros r. repeat split.
  - intros e q_arg. unfold index. simpl.
    destruct (truthy (strip (args_get q_arg ""))); repeat split.
Qed.

Lemma apply_filters_other (ft : string) (r : results) :
  ft <> "students" -> ft <> "courses" -> ft <> "docs" ->
  apply_filters ft r = r.
Proof.
  intros H1 H2 H3. unfold apply_filters.
  apply String.eqb_neq in H1. apply String.eqb_neq in H2.
  apply String.eqb_neq in H3. rewrite H1, H2, H3. reflexivity.
Qed.

(** C9.  A filter value other than ["students"], ["courses"] and ["docs"]
    (["all"], the empty string, any other string, or no [filter] argument)
    leaves the three lists as the matcher produced them, so the request
    answers as it does for ["all"]. *)
Theorem C9_unrecognised_filter_is_all (ft : string) :
  ft <> "students" -> ft <> "courses" -> ft <> "docs" ->
  (forall r : results, apply_filters ft r = r)
  /\ (forall (e : env) (q_arg : option string),
        index e q_arg (Some ft) = index e q_arg (Some "all")
        /\ index e q_arg None = index e q_arg (Some "all")
        /\ (truthy (strip (args_get q_arg "")) = true ->
            index e q_arg (Some ft)
            = res (search e (lower (strip (strip (args_get q_arg ""))))))).
Proof.
  intros H1 H2 H3. split.
  - intros r. apply apply_filters_other; assumption.
  - intros e q_arg. unfold index. simpl.
    destruct (truthy (strip (args_get q_arg ""))).
    + rewrite (apply_filters_other ft) by assumption.
      repeat split; reflexivity.
    + repeat split. discriminate.
Qed.

Lemma C9_unrecognised_filter_is_all_witness :
  index Scenario.deployment (Some "ada") (Some "entities")
  = index Scenario.deployment (Some "ada") (Some "all")
  /\ apply_filters "" (mkResults [] [] [mkHit "S1" "a.txt" "x"])
     = mkResults [] [] [mkHit "S1" "a.txt" "x"].
Proof.
  split.
  - destruct (C9_unrecognised_filter_is_all "entities") as [_ H];
      [discriminate | discriminate | discriminate |].
    apply (proj1 (H Scenario.deployment (Some "ada"))).
  - destruct (C9_unrecognised_filter_is_all "") as [H _];
      [discriminate | discriminate | discriminate |].
    apply H.
Defined.

End QueryAndFilter.

(* ===================================================================== *)
(** ** The documents list and the [seen_docs] set *)
(* ===================================================================== *)

Section Documents.

Lemma grows_refl (P : hit -> Prop) (st : state) : grows P st st.
Proof. exists []. split; [symmetry; apply app_nil_r | constructor]. Qed.

Lemma grows_same (P : hit -> Prop) (st st' : state) :
  docs_of st' = docs_of st -> grows P st st'.
Proof.
  intros E. exists []. split; [rewrite E; symmetry; apply app_nil_r|].
  constructor.
Qed.

Lemma grows_trans (P : hit -> Prop) (st1 st2 st3 : state) :
  grows P st1 st2 -> grows P st2 st3 -> grows P st1 st3.
Proof.
  intros (n1 & E1 & F1) (n2 & E2 & F2). exists (n1 ++ n2). split.
  - rewrite E2, E1. symmetry. apply app_assoc.
  - apply Forall_app. split; assumption.
Qed.

Lemma grows_weaken (P Q : hit -> Prop) (st st' : state) :
  (forall h, P h -> Q h) -> grows P st st' -> grows Q st st'.
Proof.
  intros PQ (n & E & F). exists n. split; [assumption|].
  eapply Forall_impl; eauto.
Qed.

Lemma fold_left_grows {A : Type} (P : hit -> Prop)
    (f : state -> A -> state) (l : list A) :
  (forall st x, grows P st (f st x)) ->
  forall st, grows P st (fold_left f l st).
Proof.
  intros Hf. induction l as [|x l IH]; intros st; simpl.
  - apply grows_refl.
  - eapply grows_trans; [apply Hf | apply IH].
Qed.

Lemma fold_left_inv {A : Type} (I : state -> Prop)
    (f : state -> A -> state) (l : list A) :
  (forall st x, I st -> I (f st x)) ->
  forall st, I st -> I (fold_left f l st).
Proof.
  intros Hf. induction l as [|x l IH]; intros st Hst; simpl; auto.
Qed.

Lemma NoDup_snoc {A : Type} (l : list A) (x : A) :
  List.NoDup l -> ~ In x l -> List.NoDup (l ++ [x]).
Proof.
  induction l as [|a l IH]; intros Hnd Hx; simpl.
  - constructor; [intros H; inversion H | constructor].
  - apply NoDup_cons_iff in Hnd. destruct Hnd as [Ha Hl].
    apply NoDup_cons_iff. split.
    + rewrite in_app_iff. intros [H|[H|[]]]; [exact (Ha H)|].
      apply Hx. left. symmetry. assumption.
    + apply IH; [assumption|]. intros H. apply Hx. right. assumption.
Qed.

(** *** [add_if_unseen] *)

Lemma add_if_unseen_grows (P : hit -> Prop) (h : hit) (st : state) :
  P h -> grows P st (add_if_unseen h st).
Proof.
  intros Hp. unfold add_if_unseen.
  destruct (decide (key_of h ∈ seen_docs st)).
  - apply grows_refl.
  - exists [h]. split; [reflexivity|]. constructor; [assumption|constructor].
Qed.

Lemma add_if_unseen_inv (h : hit) (st : state) :
  seen_inv st -> seen_inv (add_if_unseen h st).
Proof.
  intros [Hnd Hseen]. unfold add_if_unseen.
  destruct (decide (key_of h ∈ seen_docs st)) as [Hin|Hnin].
  - split; assumption.
  - unfold seen_inv, docs_of in *. simpl. split.
    + rewrite map_app. simpl. apply NoDup_snoc; [assumption|].
      intros Hk. apply in_map_iff in Hk. destruct Hk as (h' & Ek & Hh').
      apply Hnin. rewrite <- Ek. apply Hseen. assumption.
    + intros h' Hh'. apply in_app_iff in Hh'.
      destruct Hh' as [Hh'|[<-|[]]].
      * apply elem_of_union_r. apply Hseen. assumption.
      * apply elem_of_union_l. apply elem_of_singleton. reflexivity.
Qed.

(** *** The passes *)

Lemma add_student_docs_grows (c : corpus) (sid : string) (st : state) :
  grows (fun h => preview h = student_document) st
    (add_student_docs c sid st).
Proof.
  unfold add_student_docs. apply fold_left_grows.
  intros st' d. apply add_if_unseen_grows. reflexivity.
Qed.

Lemma add_student_docs_inv (c : corpus) (sid : string) (st : state) :
  seen_inv st -> seen_inv (add_student_docs c sid st).
Proof.
  unfold add_student_docs. apply fold_left_inv.
  intros st' d. apply add_if_unseen_inv.
Qed.

Lemma student_step_grows (c : corpus) (q : string) (cols : list string)
    (st : state) (r : list cell) :
  grows (fun h => preview h = student_document) st
    (student_step c q cols st r).
Proof.
  unfold student_step. destruct (student_matches q cols r).
  - eapply grows_trans; [|apply add_student_docs_grows].
    apply grows_same. reflexivity.
  - apply grows_refl.
Qed.

Lemma student_step_inv (c : corpus) (q : string) (cols : list string)
    (st : state) (r : list cell) :
  seen_inv st -> seen_inv (student_step c q cols st r).
Proof.
  intros H. unfold student_step. destruct (student_matches q cols r).
  - apply add_student_docs_inv. exact H.
  - exact H.
Qed.

Lemma students_pass_grows (e : env) (q : string) (st : state) :
  grows (fun h => preview h = student_document) st (students_pass e q st).
Proof.
  unfold students_pass. apply fold_left_grows.
  intros st' r. apply student_step_grows.
Qed.

Lemma students_pass_inv (e : env) (q : string) (st : state) :
  seen_inv st -> seen_inv (students_pass e q st).
Proof.
  unfold students_pass. apply fold_left_inv.
  intros st' r. apply student_step_inv.
Qed.

Lemma course_step_docs (q : string) (cols : list string) (st : state)
    (r : list cell) :
  docs_of (course_step q cols st r) = docs_of st
  /\ seen_docs (course_step q cols st r) = seen_docs st.
Proof.
  unfold course_step. destruct (course_matches q cols r); split; reflexivity.
Qed.

Lemma courses_pass_docs (e : env) (q : string) (st : state) :
  docs_of (courses_pass e q st) = docs_of st
  /\ seen_docs (courses_pass e q st) = seen_docs st.
Proof.
  unfold courses_pass. destruct (df_empty (grades_long_df e)).
  - split; reflexivity.
  - generalize st. clear st.
    induction (rows (grades_long_df e)) as [|r rs IH]; intros st; simpl.
    + split; reflexivity.
    + destruct (IH (course_step q (columns (grades_long_df e)) st r))
        as [E1 E2].
      destruct (course_step_docs q (columns (grades_long_df e)) st r)
        as [E3 E4].
      split; congruence.
Qed.

Lemma courses_pass_inv (e : env) (q : string) (st : state) :
  seen_inv st -> seen_inv (courses_pass e q st).
Proof.
  intros [Hnd Hseen]. destruct (courses_pass_docs e q st) as [E1 E2].
  unfold seen_inv. rewrite E1, E2. split; assumption.
Qed.

Lemma doc_step_grows (pdf : bool) (q sid_folder : string) (st : state)
    (f : file) :
  grows (fun _ => True) st (doc_step pdf q sid_folder st f).
Proof.
  unfold doc_step.
  destruct (String.eqb q (lower sid_folder));
    [apply add_if_unseen_grows; exact I|].
  destruct (contains q (lower (file_name f)));
    [apply add_if_unseen_grows; exact I|].
  destruct (truthy (extract_text_from_file pdf f)
            && contains q (lower (extract_text_from_file pdf f))).
  - apply add_if_unseen_grows; exact I.
  - apply grows_refl.
Qed.

Lemma doc_step_inv (pdf : bool) (q sid_folder : string) (st : state)
    (f : file) :
  seen_inv st -> seen_inv (doc_step pdf q sid_folder st f).
Proof.
  intros H. unfold doc_step.
  destruct (String.eqb q (lower sid_folder));
    [apply add_if_unseen_inv; exact H|].
  destruct (contains q (lower (file_name f)));
    [apply add_if_unseen_inv; exact H|].
  destruct (truthy (extract_text_from_file pdf f)
            && contains q (lower (extract_text_from_file pdf f))).
  - apply add_if_unseen_inv; exact H.
  - exact H.
Qed.

Lemma folder_step_grows (pdf : bool) (q : string) (st : state)
    (e : root_entry) :
  grows (fun _ => True) st (folder_step pdf q st e).
Proof.
  destruct e as [f|sid entries]; simpl.
  - apply grows_refl.
  - apply fold_left_grows. intros st' f. apply doc_step_grows.
Qed.

Lemma folder_step_inv (pdf : bool) (q : string) (st : state)
    (e : root_entry) :
  seen_inv st -> seen_inv (folder_step pdf q st e).
Proof.
  destruct e as [f|sid entries]; simpl; [auto|].
  apply fold_left_inv. intros st' f. apply doc_step_inv.
Qed.

Lemma documents_pass_grows (e : env) (q : string) (st : state) :
  grows (fun _ => True) st (documents_pass e q st).
Proof.
  unfold documents_pass. destruct (unstructured e) as [root|].
  - apply fold_left_grows. intros st' x. apply folder_step_grows.
  - apply grows_refl.
Qed.

Lemma documents_pass_inv (e : env) (q : string) (st : state) :
  seen_inv st -> seen_inv (documents_pass e q st).
Proof.
  unfold documents_pass. destruct (unstructured e) as [root|]; [|auto].
  apply fold_left_inv. intros st' x. apply folder_step_inv.
Qed.

Lemma seen_inv_init : seen_inv (mkState empty_results ∅).
Proof.
  split; simpl; [constructor | intros h []].
Qed.

Lemma search_inv (e : env) (q : string) : seen_inv (search e q).
Proof.
  unfold search.
  apply documents_pass_inv, courses_pass_inv, students_pass_inv.
  apply seen_inv_init.
Qed.

Lemma documents_apply_filters (ft : string) (r : results) :
  documents (apply_filters ft r) = documents r
  \/ documents (apply_filters ft r) = [].
Proof.
  unfold apply_filters.
  destruct (String.eqb ft "students"); [right; reflexivity|].
  destruct (String.eqb ft "courses"); [right; reflexivity|].
  destruct (String.eqb ft "docs"); left; reflexivity.
Qed.

Lemma NoDup_map_inj_on {A B : Type} (f : A -> B) (l : list A) :
  List.NoDup (map f l) ->
  forall a b, In a l -> In b l -> f a = f b -> a = b.
Proof.
  induction l as [|x l IH]; intros Hnd a b Ha Hb E; [destruct Ha|].
  simpl in Hnd. apply NoDup_cons_iff in Hnd. destruct Hnd as [Hx Hl].
  destruct Ha as [<-|Ha], Hb as [<-|Hb].
  - reflexivity.
  - exfalso. apply Hx. rewrite E. apply in_map. assumption.
  - exfalso. apply Hx. rewrite <- E. apply in_map. assumption.
  - apply IH; assumption.
Qed.

End Documents.

(* ===================================================================== *)
(** ** Deduplication, placeholder previews, hits never rewritten *)
(* ===================================================================== *)

Section Hits.

(** C3.  The documents handed to the template hold each
    (student_id, filename) pair at most once, for every loaded state, query
    and filter.  In the example the query "ada" matches the student S1 by
    name and the file [ada_notes.txt] of S1 by its name, and the query "S1"
    matches S1 by identity and [s1_essay.txt] by its name: each file is
    listed once. *)
Theorem C3_document_hits_are_unique :
  (forall (e : env) (q_arg filter_arg : option string),
      List.NoDup (map key_of (documents (index e q_arg filter_arg))))
  /\ documents (index Scenario.deployment (Some "ada") None)
     = [ mkHit "S1" "ada_notes.txt" "(student document)";
         mkHit "S1" "s1_essay.txt" "(student document)" ]
  /\ documents (index Scenario.deployment (Some "S1") None)
     = [ mkHit "S1" "ada_notes.txt" "(student document)";
         mkHit "S1" "s1_essay.txt" "(student document)" ]
  /\ documents (index Scenario.docs_only (Some "ada") None)
     = [ mkHit "S1" "ada_notes.txt" "midterm review by Ada" ].
Proof.
  split; [|repeat split; vm_compute; reflexivity].
  intros e q_arg filter_arg. unfold index.
  destruct (truthy (strip (args_get q_arg ""))); [|constructor].
  destruct (documents_apply_filters (args_get filter_arg "all")
              (res (search e (lower (strip (strip (args_get q_arg "")))))))
    as [E|E]; rewrite E.
  - apply (search_inv e).
  - constructor.
Qed.

Lemma doc_step_grows_exact (pdf : bool) (q sid_folder : string)
    (st : state) (f : file) :
  grows (fun h => q = lower (student_id h) -> preview h = student_document)
    st (doc_step pdf q sid_folder st f).
Proof.
  unfold doc_step. destruct (String.eqb q (lower sid_folder)) eqn:Eq.
  - apply add_if_unseen_grows. reflexivity.
  - apply String.eqb_neq in Eq.
    destruct (contains q (lower (file_name f))).
    + apply add_if_unseen_grows. simpl. intros H. contradiction.
    + destruct (truthy (extract_text_from_file pdf f)
                && contains q (lower (extract_text_from_file pdf f))).
      * apply add_if_unseen_grows. simpl. intros H. contradiction.
      * apply grows_refl.
Qed.

Lemma documents_pass_grows_exact (e : env) (q : string) (st : state) :
  grows (fun h => q = lower (student_id h) -> preview h = student_document)
    st (documents_pass e q st).
Proof.
  unfold documents_pass. destruct (unstructured e) as [root|].
  - apply fold_left_grows. intros st' x.
    destruct x as [f|sid entries]; simpl; [apply grows_refl|].
    apply fold_left_grows. intros st'' f. apply doc_step_grows_exact.
  - apply grows_refl.
Qed.

(** C7, as the code has it.  The hits added for a matching student row
    (lines 121-130) and the hits added for a folder whose name is the
    query (lines 157-165) carry the preview ["(student document)"]; so does
    every hit of a request that comes from the student pass or whose folder
    is the query. *)
Theorem C7_placeholder_is_student_document :
  (forall (c : corpus) (sid : string) (st : state),
      exists new,
        documents (res (add_student_docs c sid st))
        = documents (res st) ++ new
        /\ Forall (fun h => preview h = "(student document)") new)
  /\ (forall (pdf : bool) (q sid_folder : string) (st : state) (f : file),
        q = lower sid_folder ->
        exists new,
          documents (res (doc_step pdf q sid_folder st f))
          = documents (res st) ++ new
          /\ Forall (fun h => preview h = "(student document)") new)
  /\ (forall (e : env) (q : string) (h : hit),
        In h (documents (res (search e q))) ->
        In h (documents (res (students_pass e q (mkState empty_results ∅))))
        \/ q = lower (student_id h) ->
        preview h = "(student document)").
Proof.
  split; [|split].
  - intros c sid st. apply add_student_docs_grows.
  - intros pdf q sid_folder st f Hq.
    destruct (doc_step_grows_exact pdf q sid_folder st f) as (new & E & F).
    exists new. split; [exact E|].
    assert (G : grows (fun h => student_id h = sid_folder) st
                  (doc_step pdf q sid_folder st f)).
    { unfold doc_step.
      destruct (String.eqb q (lower sid_folder));
        [apply add_if_unseen_grows; reflexivity|].
      destruct (contains q (lower (file_name f)));
        [apply add_if_unseen_grows; reflexivity|].
      destruct (truthy (extract_text_from_file pdf f)
                && contains q (lower (extract_text_from_file pdf f)));
        [apply add_if_unseen_grows; reflexivity | apply grows_refl]. }
    destruct G as (new' & E' & F').
    unfold docs_of in E, E'. rewrite E in E'.
    apply app_inv_head in E'. subst new'.
    rewrite List.Forall_forall in *. intros h Hh.
    apply (F h Hh). rewrite (F' h Hh). exact Hq.
  - intros e q h Hin Hor.
    set (st1 := students_pass e q (mkState empty_results ∅)) in *.
    destruct (students_pass_grows e q (mkState empty_results ∅))
      as (n1 & E1 & F1).
    destruct (courses_pass_docs e q st1) as [E2 _].
    destruct (documents_pass_grows_exact e q (courses_pass e q st1))
      as (n3 & E3 & F3).
    fold st1 in E1. simpl in E1.
    assert (Hall : documents (res (search e q)) = n1 ++ n3).
    { unfold search. fold st1. unfold docs_of in *. rewrite E3, E2, E1.
      reflexivity. }
    rewrite List.Forall_forall in F1, F3.
    rewrite Hall in Hin. apply in_app_iff in Hin.
    destruct Hin as [Hin|Hin]; [apply F1; exact Hin|].
    destruct Hor as [Hold|Hq]; [|apply F3; assumption].
    apply F1. unfold docs_of in E1. rewrite E1 in Hold. exact Hold.
Qed.

Lemma C7_placeholder_is_student_document_witness :
  exists new,
    documents (res (doc_step true "s1" "S1" (mkState empty_results ∅)
                      Scenario.notes))
    = [] ++ new
    /\ Forall (fun h => preview h = "(student document)") new.
Proof.
  apply (proj1 (proj2 C7_placeholder_is_student_document)
           true "s1" "S1" (mkState empty_results ∅) Scenario.notes).
  reflexivity.
Defined.

(** C7 as the specification words it fails: the hits added for the
    student S1 of the example are the two files of the folder with the
    preview ["(student document)"], so it is not true that the new hits all
    carry ["(document available)"]. *)
Lemma C7_placeholder_is_not_document_available :
  documents (res (add_student_docs Scenario.docs "S1"
                    (mkState empty_results ∅)))
  = [ mkHit "S1" "ada_notes.txt" "(student document)";
      mkHit "S1" "s1_essay.txt" "(student document)" ]
  /\ ~ (exists new,
          documents (res (add_student_docs Scenario.docs "S1"
                            (mkState empty_results ∅)))
          = documents (res (mkState empty_results ∅)) ++ new
          /\ Forall (fun h => preview h = "(document available)") new).
Proof.
  assert (E : documents (res (add_student_docs Scenario.docs "S1"
                                (mkState empty_results ∅)))
              = [ mkHit "S1" "ada_notes.txt" "(student document)";
                  mkHit "S1" "s1_essay.txt" "(student document)" ])
    by (vm_compute; reflexivity).
  split; [exact E|].
  intros (new & En & F). rewrite E in En. simpl in En. subst new.
  inversion F as [|h l Hh Hl]. simpl in Hh. discriminate.
Qed.

End Hits.

Section Append.

(** C10.  During one request the documents list is only appended to: every
    iteration of the student loop and of the file loop leaves the earlier
    hits in place, so the result starts with the hits of the student pass,
    unchanged.  A hit of the student pass keeps its preview
    ["(student document)"] in the result, and it is the only hit with its
    (student_id, filename): no later rule, matching the file name or the
    text, replaces it or adds a second hit with a content preview. *)
Theorem C10_hits_are_never_modified (e : env) (q : string) :
  (exists new,
      documents (res (search e q))
      = documents (res (students_pass e q (mkState empty_results ∅))) ++ new)
  /\ (forall h : hit,
        In h (documents (res (students_pass e q (mkState empty_results ∅)))) ->
        preview h = "(student document)"
        /\ In h (documents (res (search e q)))
        /\ (forall h' : hit,
              In h' (documents (res (search e q))) ->
              key_of h' = key_of h -> h' = h))
  /\ (forall (pdf : bool) (sid_folder : string) (st : state) (f : file),
        exists new,
          documents (res (doc_step pdf q sid_folder st f))
          = documents (res st) ++ new)
  /\ (forall (c : corpus) (cols : list string) (st : state) (r : list cell),
        exists new,
          documents (res (student_step c q cols st r))
          = documents (res st) ++ new).
Proof.
  set (st1 := students_pass e q (mkState empty_results ∅)).
  destruct (students_pass_grows e q (mkState empty_results ∅))
    as (n1 & E1 & F1).
  fold st1 in E1. simpl in E1. unfold docs_of in E1.
  destruct (courses_pass_docs e q st1) as [E2 _].
  destruct (documents_pass_grows e q (courses_pass e q st1))
    as (n3 & E3 & _).
  assert (Hall : documents (res (search e q))
                 = documents (res st1) ++ n3).
  { unfold search. fold st1. unfold docs_of in *. rewrite E3, E2.
    reflexivity. }
  split; [exists n3; exact Hall|]. split; [|split].
  - intros h Hh.
    assert (Hfin : In h (documents (res (search e q)))).
    { rewrite Hall. apply in_app_iff. left. exact Hh. }
    split; [|split].
    + rewrite List.Forall_forall in F1. apply F1. rewrite <- E1. exact Hh.
    + exact Hfin.
    + intros h' Hh' Ek.
      apply (NoDup_map_inj_on key_of (documents (res (search e q))));
        [apply (search_inv e q) | assumption | assumption | assumption].
  - intros pdf sid_folder st f.
    destruct (doc_step_grows pdf q sid_folder st f) as (new & E & _).
    exists new. exact E.
  - intros c cols st r.
    destruct (student_step_grows c q cols st r) as (new & E & _).
    exists new. exact E.
Qed.

Lemma C10_hits_are_never_modified_witness :
  preview (mkHit "S1" "ada_notes.txt" "(student document)")
  = "(student document)"
  /\ In (mkHit "S1" "ada_notes.txt" "(student document)")
       (documents (res (search Scenario.deployment "ada")))
  /\ (forall h' : hit,
        In h' (documents (res (search Scenario.deployment "ada"))) ->
        key_of h' = key_of (mkHit "S1" "ada_notes.txt" "(student document)") ->
        h' = mkHit "S1" "ada_notes.txt" "(student document)").
Proof.
  apply (proj1 (proj2 (C10_hits_are_never_modified Scenario.deployment "ada"))).
  vm_compute. left. reflexivity.
Defined.

End Append.

(* ===================================================================== *)
(** ** The merge of the courses metadata *)
(* ===================================================================== *)

Section Merging.

Lemma join_row_keeps (i j width : nat) (right_rows : list (list cell))
    (lr : list cell) :
  exists extra, In (lr ++ extra) (join_row i j width right_rows lr).
Proof.
  unfold join_row.
  destruct (List.filter _ right_rows) as [|p ps].
  - exists (repeat NaN width). left. reflexivity.
  - exists (drop_at j p). left. reflexivity.
Qed.

(** X5.  No row of [grades_long_df] is lost by lines 76-81: each one is the
    beginning of a row of the result. *)
Lemma merge_courses_keeps_rows (grades_long courses_frame : DataFrame)
    (lr : list cell) :
  In lr (rows grades_long) ->
  exists extra,
    In (lr ++ extra) (rows (merge_courses grades_long courses_frame)).
Proof.
  intros Hin.
  assert (Hsame : exists extra, In (lr ++ extra) (rows grades_long)).
  { exists []. rewrite app_nil_r. exact Hin. }
  unfold merge_courses.
  destruct (has_column "course_id" grades_long
            && has_column "course_id" courses_frame); [|exact Hsame].
  unfold merge_left.
  destruct (col_index "course_id" (columns grades_long)) as [i|];
    [|exact Hsame].
  destruct (col_index "course_id" (columns courses_frame)) as [j|];
    [|exact Hsame].
  destruct (has_dup _ || has_dup _); [exact Hsame|]. simpl.
  destruct (join_row_keeps i j
              (length (suffix_labels "_y" "course_id" (columns grades_long)
                         (drop_at j (columns courses_frame))))
              (rows courses_frame) lr) as (extra & Hex).
  exists extra. apply in_flat_map. exists lr. split; assumption.
Qed.

(** C6 (the code departs from it).  The left merge keeps the row of CS102,
    which [courses.json] does not describe, but its [title] and [lecturer]
    are the missing-value marker, not the empty string: [str] turns it into
    "nan", the text that line 137 searches and that the page prints.  So
    the query "nan" returns the CS102 record although none of its fields
    contains it; with blank fields the record would not match. *)
Theorem C6_unmatched_course_gets_nan :
  load_grades Scenario.wide_grades Scenario.courses_meta
  = Ok (mkFrame ["student_id"; "course_id"; "score"; "title"; "lecturer"]
          [ [Str "S1"; Str "CS101"; Str "88"; Str "Algorithms";
             Str "Dr Hopper"];
            [Str "S1"; Str "CS102"; Str "91"; NaN; NaN] ])
  /\ load_grades Scenario.wide_grades Scenario.courses_meta
     = Ok (grades_long_df Scenario.deployment)
  /\ field ["student_id"; "course_id"; "score"; "title"; "lecturer"]
       [Str "S1"; Str "CS102"; Str "91"; NaN; NaN] "title" = "nan"
  /\ courses (index Scenario.deployment (Some "nan") None)
     = [ [("student_id", Str "S1"); ("course_id", Str "CS102");
          ("score", Str "91"); ("title", NaN); ("lecturer", NaN)] ]
  /\ course_matches "nan"
       ["student_id"; "course_id"; "score"; "title"; "lecturer"]
       [Str "S1"; Str "CS102"; Str "91"; Str ""; Str ""] = false.
Proof. repeat split; vm_compute; reflexivity. Qed.

End Merging.

(* ===================================================================== *)
(** ** Loading: no missing value survives [load_csv_safe] *)
(* ===================================================================== *)

Section Loading.

Lemma fill_cell_not_nan (v : string) (c : cell) : fill_cell v c <> NaN.
Proof. destruct c; discriminate. Qed.

Lemma nth_not_nan (r : list cell) (i : nat) (s : string) :
  Forall (fun c => c <> NaN) r -> nth i r (Str s) <> NaN.
Proof.
  intros F. revert i. induction F as [|c r Hc F IH]; intros [|i]; simpl;
    try discriminate; auto.
Qed.

Lemma row_get_not_nan (cols : list string) (r : list cell)
    (name s : string) :
  Forall (fun c => c <> NaN) r -> row_get cols r name (Str s) <> NaN.
Proof.
  intros F. unfold row_get. destruct (col_index name cols).
  - apply nth_not_nan. exact F.
  - discriminate.
Qed.

Lemma fillna_no_nan (v : string) (df : DataFrame) : no_nan (fillna v df).
Proof.
  unfold no_nan, fillna. simpl.
  apply List.Forall_forall. intros r Hr.
  apply in_map_iff in Hr. destruct Hr as (r0 & <- & _).
  apply List.Forall_forall. intros c Hc.
  apply in_map_iff in Hc. destruct Hc as (c0 & <- & _).
  apply fill_cell_not_nan.
Qed.

(** X1.  [load_csv_safe] never hands out a missing value: every cell of the
    frame is a string, so [row.get(name, "")] is a string for every row and
    every column name, present or not.  A parsed file keeps its columns,
    its number of rows and the length of each row, and prints nothing; an
    absent or unparsable file gives the empty frame and one diagnostic. *)
Theorem load_csv_safe_has_no_missing_value (path : string)
    (src : csv_source) :
  no_nan (fst (load_csv_safe path src))
  /\ (forall (r : list cell) (name : string),
        In r (rows (fst (load_csv_safe path src))) ->
        exists s,
          row_get (columns (fst (load_csv_safe path src))) r name (Str "")
          = Str s)
  /\ (forall df : DataFrame,
        src = CsvParsed df ->
        columns (fst (load_csv_safe path src)) = columns df
        /\ map (@length cell) (rows (fst (load_csv_safe path src)))
           = map (@length cell) (rows df)
        /\ snd (load_csv_safe path src) = [])
  /\ ((forall df : DataFrame, src <> CsvParsed df) ->
      fst (load_csv_safe path src) = empty_frame
      /\ length (snd (load_csv_safe path src)) = 1).
Proof.
  assert (N : no_nan (fst (load_csv_safe path src))).
  { destruct src; simpl; [constructor | constructor | apply fillna_no_nan]. }
  split; [exact N|]. split; [|split].
  - intros r name Hr. unfold no_nan in N.
    rewrite List.Forall_forall in N. specialize (N r Hr).
    pose proof (row_get_not_nan
                  (columns (fst (load_csv_safe path src))) r name "" N) as H.
    destruct (row_get _ r name (Str "")) as [s|]; [eauto | congruence].
  - intros df ->. simpl. repeat split.
    rewrite map_map. apply map_ext. intros r. apply length_map.
  - intros H. destruct src as [| msg | df]; simpl; auto.
    exfalso. apply (H df). reflexivity.
Qed.

Lemma load_csv_safe_has_no_missing_value_witness :
  columns (fst (load_csv_safe "students.csv"
                  (CsvParsed Samples.raw_students)))
  = ["student_id"; "name"; "programme"; "email"]
  /\ fst (load_csv_safe "grades.csv" CsvMissing) = empty_frame.
Proof.
  split.
  - apply (proj1 (proj2 (proj2 (load_csv_safe_has_no_missing_value
             "students.csv" (CsvParsed Samples.raw_students))))
             Samples.raw_students eq_refl).
  - apply (proj2 (proj2 (proj2 (load_csv_safe_has_no_missing_value
             "grades.csv" CsvMissing)))).
    discriminate.
Defined.

End Loading.

(* ===================================================================== *)
(** ** Shape of the normalised grades *)
(* ===================================================================== *)

Section Shape.

Lemma length_flat_map_const {A B : Type} (f : A -> list B) (l : list A)
    (n : nat) :
  (forall a, length (f a) = n) -> length (flat_map f l) = length l * n.
Proof.
  intros H. induction l as [|a l IH]; simpl; [reflexivity|].
  rewrite length_app, H, IH. reflexivity.
Qed.

Lemma existsb_eqb_In (c : string) (l : list string) :
  existsb (String.eqb c) l = true <-> In c l.
Proof.
  rewrite existsb_exists. split.
  - intros (x & Hx & E). apply String.eqb_eq in E. subst. exact Hx.
  - intros H. exists c. split; [exact H | apply String.eqb_refl].
Qed.

Lemma filter_out_absent (c : string) (l : list string) :
  ~ In c l -> List.filter (fun x => negb (String.eqb x c)) l = l.
Proof.
  induction l as [|x l IH]; intros H; simpl; [reflexivity|].
  destruct (String.eqb x c) eqn:E.
  - apply String.eqb_eq in E. exfalso. apply H. left. exact E.
  - simpl. f_equal. apply IH. intros Hc. apply H. right. exact Hc.
Qed.

Lemma length_filter_out (c : string) (l : list string) :
  List.NoDup l -> In c l ->
  length (List.filter (fun x => negb (String.eqb x c)) l) = length l - 1.
Proof.
  induction l as [|x l IH]; intros Hnd Hin; [destruct Hin|].
  apply NoDup_cons_iff in Hnd. destruct Hnd as [Hx Hl]. simpl.
  destruct (String.eqb x c) eqn:E.
  - apply String.eqb_eq in E. subst x. simpl.
    rewrite filter_out_absent by exact Hx. lia.
  - simpl. destruct Hin as [->|Hin].
    + rewrite String.eqb_refl in E. discriminate.
    + rewrite IH by assumption. destruct l; [destruct Hin | simpl; lia].
Qed.

(** X2.  A grades table with distinct column names, [student_id] among them
    and [score] not, and more than two columns is normalised to one row
    per row of the table and per column other than [student_id]:
    (columns - 1) * rows rows, each of three cells when the table has
    rows. *)
Theorem grades_long_of_row_count (df : DataFrame) :
  List.NoDup (columns df) ->
  has_column "student_id" df = true ->
  2 < length (columns df) ->
  has_column "score" df = false ->
  exists out,
    grades_long_of df = Ok out
    /\ length (rows out) = (length (columns df) - 1) * length (rows df)
    /\ (rows df <> [] ->
        columns out = ["student_id"; "course_id"; "score"]
        /\ Forall (fun r => length r = 3) (rows out)).
Proof.
  intros Hnd Hc Hn Hs.
  destruct (rows df) as [|r rs] eqn:Hr.
  - exists df. split; [|split; [|congruence]].
    + apply grades_long_of_not_wide, no_rows_not_wide. exact Hr.
    + rewrite Hr. simpl. lia.
  - assert (W : is_wide df = true).
    { apply is_wide_spec. rewrite Hr. repeat split; auto; congruence. }
    exists (mkFrame ["student_id"; "course_id"; "score"]
              (melt_rows df "student_id")).
    rewrite (grades_long_of_wide df W), (melt_without_clash df _ _ _ Hs).
    split; [reflexivity|]. simpl. split.
    + unfold melt_rows.
      rewrite (length_flat_map_const _ _ (length (rows df))).
      * unfold value_vars. rewrite length_filter_out; [rewrite Hr; reflexivity
          | exact Hnd | apply existsb_eqb_In; exact Hc].
      * intros c. apply length_map.
    + intros _. split; [reflexivity|].
      apply List.Forall_forall. intros x Hx.
      apply in_flat_map in Hx. destruct Hx as (c & _ & Hx).
      apply in_map_iff in Hx. destruct Hx as (r0 & <- & _). reflexivity.
Qed.

Lemma grades_long_of_row_count_witness :
  exists out,
    grades_long_of Scenario.wide_grades = Ok out
    /\ length (rows out) = 2.
Proof.
  destruct (grades_long_of_row_count Scenario.wide_grades
              ltac:(repeat constructor; simpl; intuition discriminate)
              eq_refl ltac:(simpl; lia) eq_refl) as (out & E & L & _).
  exists out. split; [exact E | exact L].
Defined.

End Shape.

(* ===================================================================== *)
(** ** The merged frame *)
(* ===================================================================== *)

Section MergedFrame.

Lemma col_index_lt (c : string) (cols : list string) (i : nat) :
  col_index c cols = Some i -> i < length cols.
Proof.
  revert i. induction cols as [|x cols IH]; intros i H; simpl in H;
    [discriminate|].
  destruct (String.eqb c x).
  - inversion H. simpl. lia.
  - destruct (col_index c cols) as [k|]; simpl in H; [|discriminate].
    inversion H. simpl. specialize (IH k eq_refl). lia.
Qed.

Lemma length_drop_at {A : Type} (i : nat) (l : list A) :
  i < length l -> length (drop_at i l) = length l - 1.
Proof.
  intros H. unfold drop_at.
  rewrite length_app, length_firstn, length_skipn. lia.
Qed.

Lemma length_suffix_labels (sfx key : string) (other mine : list string) :
  length (suffix_labels sfx key other mine) = length mine.
Proof. unfold suffix_labels. apply length_map. Qed.

Lemma melt_rectangular (df out : DataFrame) (a b c : string) :
  melt df a b c = Ok out -> rectangular out.
Proof.
  unfold melt. destruct (has_column c df); [discriminate|].
  intros H. inversion H. subst out. clear H.
  unfold rectangular, melt_rows. simpl.
  apply List.Forall_forall. intros x Hx.
  apply in_flat_map in Hx. destruct Hx as (col & _ & Hx).
  apply in_map_iff in Hx. destruct Hx as (r & <- & _). reflexivity.
Qed.

Lemma merge_left_rectangular (left right : DataFrame) (key : string)
    (m : DataFrame) :
  rectangular left -> rectangular right ->
  merge_left left right key = Ok m -> rectangular m.
Proof.
  intros Rl Rr. unfold merge_left.
  destruct (col_index key (columns left)) as [i|] eqn:Ei; [|discriminate].
  destruct (col_index key (columns right)) as [j|] eqn:Ej; [|discriminate].
  destruct (has_dup _ || has_dup _); [discriminate|].
  intros H. inversion H. subst m. clear H.
  apply col_index_lt in Ej.
  unfold rectangular in *. simpl.
  rewrite List.Forall_forall in *. intros x Hx.
  apply in_flat_map in Hx. destruct Hx as (lr & Hlr & Hx).
  rewrite length_app, !length_suffix_labels, length_drop_at by exact Ej.
  unfold join_row in Hx.
  destruct (List.filter _ (rows right)) as [|p ps] eqn:Ef.
  - destruct Hx as [<-|[]].
    rewrite length_app, repeat_length, length_suffix_labels,
      length_drop_at by exact Ej.
    rewrite (Rl lr Hlr). reflexivity.
  - apply in_map_iff in Hx. destruct Hx as (rr & <- & Hrr).
    assert (Hin : In rr (rows right)).
    { rewrite <- Ef in Hrr. apply filter_In in Hrr. apply Hrr. }
    rewrite length_app, length_drop_at.
    + rewrite (Rl lr Hlr), (Rr rr Hin). reflexivity.
    + rewrite (Rr rr Hin). exact Ej.
Qed.

(** X3.  Lines 63-81 keep the frames rectangular: when every row of the grades
    table and of the courses table has one cell per column, so has every
    row of the [grades_long_df] they produce, melted or not, merged or
    not. *)
Theorem load_grades_is_rectangular (grades_df courses_df out : DataFrame) :
  rectangular grades_df -> rectangular courses_df ->
  load_grades grades_df courses_df = Ok out ->
  rectangular out.
Proof.
  intros Rg Rc. unfold load_grades.
  destruct (grades_long_of grades_df) as [gl|] eqn:Eg; simpl;
    [|discriminate].
  intros H. inversion H. subst out. clear H.
  assert (Rl : rectangular gl).
  { unfold grades_long_of in Eg. destruct (is_wide grades_df).
    - exact (melt_rectangular _ _ _ _ _ Eg).
    - inversion Eg. subst gl. exact Rg. }
  unfold merge_courses.
  destruct (has_column "course_id" gl
            && has_column "course_id" courses_df); [|exact Rl].
  destruct (merge_left gl courses_df "course_id")
    as [m|] eqn:Em; simpl; [|exact Rl].
  exact (merge_left_rectangular _ _ _ _ Rl Rc Em).
Qed.

Lemma load_grades_is_rectangular_witness :
  load_grades Scenario.wide_grades Scenario.courses_meta
  = Ok Scenario.merged_grades
  /\ rectangular Scenario.merged_grades.
Proof.
  split; [reflexivity|].
  apply (load_grades_is_rectangular Scenario.wide_grades
           Scenario.courses_meta Scenario.merged_grades);
    [repeat constructor | repeat constructor | reflexivity].
Defined.

Lemma filter_unique_key {A : Type} (k : A -> cell) (v : cell)
    (l : list A) :
  List.NoDup (map k l) ->
  List.filter (fun x => cell_eqb (k x) v) l
  = match List.find (fun x => cell_eqb (k x) v) l with
    | Some x => [x]
    | None => []
    end.
Proof.
  induction l as [|x l IH]; intros Hnd; simpl; [reflexivity|].
  simpl in Hnd. apply NoDup_cons_iff in Hnd. destruct Hnd as [Hx Hl].
  destruct (cell_eqb (k x) v) eqn:E.
  - f_equal. unfold cell_eqb in E. apply bool_decide_eq_true in E.
    clear IH. induction l as [|y l IH]; simpl; [reflexivity|].
    destruct (cell_eqb (k y) v) eqn:Ey.
    + unfold cell_eqb in Ey. apply bool_decide_eq_true in Ey.
      exfalso. apply Hx. left. congruence.
    + apply IH.
      * intros H. apply Hx. right. exact H.
      * simpl in Hl. apply NoDup_cons_iff in Hl. apply Hl.
  - apply IH. exact Hl.
Qed.

Lemma flat_map_singleton {A B : Type} (f : A -> list B) (g : A -> B)
    (l : list A) :
  (forall a, f a = [g a]) -> flat_map f l = map g l.
Proof.
  intros H. induction l as [|a l IH]; simpl; [reflexivity|].
  rewrite H, IH. reflexivity.
Qed.

(** X4.  When no two rows of the courses table have the same [course_id], a
    successful left merge is a lookup: the result has exactly one row per
    row of the grades, in the same order, made of that row followed by the
    other cells of its course, or by one missing value per metadata column
    when the course is not described. *)
Theorem merge_left_unique_keys (left right m : DataFrame) (key : string)
    (i j : nat) :
  col_index key (columns left) = Some i ->
  col_index key (columns right) = Some j ->
  List.NoDup (map (fun rr => nth j rr NaN) (rows right)) ->
  merge_left left right key = Ok m ->
  rows m
  = map (fun lr =>
           match List.find
                   (fun rr => cell_eqb (nth j rr NaN) (nth i lr NaN))
                   (rows right) with
           | Some rr => lr ++ drop_at j rr
           | None => lr ++ repeat NaN (length (columns right) - 1)
           end) (rows left)
  /\ length (rows m) = length (rows left).
Proof.
  intros Ei Ej Hnd. unfold merge_left. rewrite Ei, Ej.
  destruct (has_dup _ || has_dup _); [discriminate|].
  intros H. inversion H. subst m. clear H. simpl.
  assert (E : forall lr,
             join_row i j
               (length (suffix_labels "_y" key (columns left)
                          (drop_at j (columns right))))
               (rows right) lr
             = [match List.find
                        (fun rr => cell_eqb (nth j rr NaN) (nth i lr NaN))
                        (rows right) with
                | Some rr => lr ++ drop_at j rr
                | None => lr ++ repeat NaN (length (columns right) - 1)
                end]).
  { intros lr. unfold join_row.
    rewrite (filter_unique_key (fun rr => nth j rr NaN) (nth i lr NaN)
               (rows right) Hnd).
    destruct (List.find _ (rows right)); simpl; [reflexivity|].
    rewrite length_suffix_labels, length_drop_at
      by (eapply col_index_lt; eauto).
    reflexivity. }
  rewrite (flat_map_singleton _ _ _ E). split; [reflexivity|].
  apply length_map.
Qed.

Lemma merge_left_unique_keys_witness :
  length (rows Scenario.merged_grades) = 2.
Proof.
  apply (proj2 (merge_left_unique_keys
                  Scenario.melted_grades
                  Scenario.courses_meta
                  Scenario.merged_grades
                  "course_id" 1 0 eq_refl eq_refl
                  ltac:(repeat constructor; simpl; intuition discriminate)
                  eq_refl)).
Defined.

Lemma merge_courses_keeps_rows_witness :
  exists extra,
    In ([Str "S1"; Str "CS102"; Str "91"] ++ extra)
      (rows (merge_courses Scenario.melted_grades Scenario.courses_meta)).
Proof.
  apply merge_courses_keeps_rows. simpl. right. left. reflexivity.
Defined.

End MergedFrame.

(* ===================================================================== *)
(** ** What a request returns *)
(* ===================================================================== *)

Section Matches.

Lemma fold_left_proj {A B : Type} (g : state -> B)
    (f : state -> A -> state) (l : list A) :
  (forall st x, g (f st x) = g st) ->
  forall st, g (fold_left f l st) = g st.
Proof.
  intros H. induction l as [|x l IH]; intros st; simpl; [reflexivity|].
  rewrite IH. apply H.
Qed.

(** The students and the courses of a state. *)
Lemma add_if_unseen_tables (h : hit) (st : state) :
  students (res (add_if_unseen h st)) = students (res st)
  /\ courses (res (add_if_unseen h st)) = courses (res st).
Proof.
  unfold add_if_unseen. destruct (decide _); split; reflexivity.
Qed.

Lemma add_student_docs_tables (c : corpus) (sid : string) (st : state) :
  students (res (add_student_docs c sid st)) = students (res st)
  /\ courses (res (add_student_docs c sid st)) = courses (res st).
Proof.
  unfold add_student_docs. split.
  - apply (fold_left_proj (fun st => students (res st))).
    intros st' d. apply add_if_unseen_tables.
  - apply (fold_left_proj (fun st => courses (res st))).
    intros st' d. apply add_if_unseen_tables.
Qed.

Lemma students_pass_tables (e : env) (q : string) (st : state) :
  students (res (students_pass e q st))
  = students (res st)
    ++ map (to_dict (columns (students_df e)))
         (List.filter (student_matches q (columns (students_df e)))
            (rows (students_df e)))
  /\ courses (res (students_pass e q st)) = courses (res st).
Proof.
  unfold students_pass. revert st.
  induction (rows (students_df e)) as [|r rs IH]; intros st; simpl.
  - split; [symmetry; apply app_nil_r | reflexivity].
  - destruct (IH (student_step (unstructured e) q
                    (columns (students_df e)) st r)) as [E1 E2].
    rewrite E1, E2. unfold student_step.
    destruct (student_matches q (columns (students_df e)) r); simpl.
    + destruct (add_student_docs_tables (unstructured e)
                  (field (columns (students_df e)) r "student_id")
                  (mkState
                     (mkResults
                        (students (res st)
                         ++ [to_dict (columns (students_df e)) r])
                        (courses (res st)) (documents (res st)))
                     (seen_docs st))) as [F1 F2].
      rewrite F1, F2. simpl. rewrite <- app_assoc. split; reflexivity.
    + split; reflexivity.
Qed.

Lemma courses_pass_tables (e : env) (q : string) (st : state) :
  students (res (courses_pass e q st)) = students (res st)
  /\ courses (res (courses_pass e q st))
     = courses (res st)
       ++ (if df_empty (grades_long_df e) then []
           else map (to_dict (columns (grades_long_df e)))
                  (List.filter
                     (course_matches q (columns (grades_long_df e)))
                     (rows (grades_long_df e)))).
Proof.
  unfold courses_pass. destruct (df_empty (grades_long_df e)).
  - split; [reflexivity | symmetry; apply app_nil_r].
  - revert st.
    induction (rows (grades_long_df e)) as [|r rs IH]; intros st; simpl.
    + split; [reflexivity | symmetry; apply app_nil_r].
    + destruct (IH (course_step q (columns (grades_long_df e)) st r))
        as [E1 E2].
      rewrite E1, E2. unfold course_step.
      destruct (course_matches q (columns (grades_long_df e)) r); simpl.
      * rewrite <- app_assoc. split; reflexivity.
      * split; reflexivity.
Qed.

Lemma doc_step_tables (pdf : bool) (q sid_folder : string) (st : state)
    (f : file) :
  students (res (doc_step pdf q sid_folder st f)) = students (res st)
  /\ courses (res (doc_step pdf q sid_folder st f)) = courses (res st).
Proof.
  unfold doc_step.
  destruct (String.eqb q (lower sid_folder));
    [apply add_if_unseen_tables|].
  destruct (contains q (lower (file_name f)));
    [apply add_if_unseen_tables|].
  destruct (truthy (extract_text_from_file pdf f)
            && contains q (lower (extract_text_from_file pdf f)));
    [apply add_if_unseen_tables | split; reflexivity].
Qed.

Lemma documents_pass_tables (e : env) (q : string) (st : state) :
  students (res (documents_pass e q st)) = students (res st)
  /\ courses (res (documents_pass e q st)) = courses (res st).
Proof.
  unfold documents_pass. destruct (unstructured e) as [root|];
    [|split; reflexivity].
  split.
  - apply (fold_left_proj (fun st => students (res st))).
    intros st' [f|sid entries]; simpl; [reflexivity|].
    apply (fold_left_proj (fun st => students (res st))).
    intros st'' f. apply doc_step_tables.
  - apply (fold_left_proj (fun st => courses (res st))).
    intros st' [f|sid entries]; simpl; [reflexivity|].
    apply (fold_left_proj (fun st => courses (res st))).
    intros st'' f. apply doc_step_tables.
Qed.

Lemma search_tables (e : env) (q : string) :
  students (res (search e q))
  = map (to_dict (columns (students_df e)))
      (List.filter (student_matches q (columns (students_df e)))
         (rows (students_df e)))
  /\ courses (res (search e q))
     = (if df_empty (grades_long_df e) then []
        else map (to_dict (columns (grades_long_df e)))
               (List.filter (course_matches q (columns (grades_long_df e)))
                  (rows (grades_long_df e)))).
Proof.
  unfold search. split.
  - rewrite (proj1 (documents_pass_tables e q _)).
    rewrite (proj1 (courses_pass_tables e q _)).
    rewrite (proj1 (students_pass_tables e q _)). reflexivity.
  - rewrite (proj2 (documents_pass_tables e q _)).
    rewrite (proj2 (courses_pass_tables e q _)).
    rewrite (proj2 (students_pass_tables e q _)). reflexivity.
Qed.

(** X6.  The students of a request are the records of the rows of
    [students_df] that pass the test of line 116, each once, in the order
    of the table; the document passes add and remove none. *)
Theorem students_are_the_matching_rows (e : env) (q : string) :
  students (res (search e q))
  = map (to_dict (columns (students_df e)))
      (List.filter (student_matches q (columns (students_df e)))
         (rows (students_df e))).
Proof. apply search_tables. Qed.

(** X7.  The courses of a request are the records of the rows of
    [grades_long_df] that pass the test of line 139, each once, in the
    order of the frame, and none when the frame is empty. *)
Theorem courses_are_the_matching_rows (e : env) (q : string) :
  courses (res (search e q))
  = if df_empty (grades_long_df e) then []
    else map (to_dict (columns (grades_long_df e)))
           (List.filter (course_matches q (columns (grades_long_df e)))
              (rows (grades_long_df e))).
Proof. apply search_tables. Qed.

(** X8.  Without the folder of unstructured documents, and with student
    identifiers that each name a single path component, a request returns
    no document, whatever the query matches. *)
Theorem no_corpus_no_documents (e : env) (q : string) :
  unstructured e = None ->
  Forall (fun r =>
            plain_name (field (columns (students_df e)) r "student_id")
            = true) (rows (students_df e)) ->
  documents (res (search e q)) = []
  /\ forall q_arg filter_arg,
       documents (index e q_arg filter_arg) = [].
Proof.
  intros Hn _.
  assert (H : documents (res (search e q)) = []
              /\ forall q', documents (res (search e q')) = []).
  { assert (G : forall q', documents (res (search e q')) = []).
    { intros q'. unfold search, documents_pass. rewrite Hn.
      destruct (courses_pass_docs e q'
                  (students_pass e q' (mkState empty_results ∅)))
        as [E _]. unfold docs_of in E. rewrite E.
      unfold students_pass.
      apply (fold_left_proj (fun st => documents (res st))).
      intros st r. unfold student_step.
      destruct (student_matches q' (columns (students_df e)) r);
        [|reflexivity].
      unfold add_student_docs, list_student_docs. rewrite Hn. reflexivity. }
    split; [apply G | exact G]. }
  destruct H as [H1 H2]. split; [exact H1|].
  intros q_arg filter_arg. unfold index.
  destruct (truthy (strip (args_get q_arg ""))); [|reflexivity].
  destruct (documents_apply_filters (args_get filter_arg "all")
              (res (search e (lower (strip (strip (args_get q_arg "")))))))
    as [E|E]; rewrite E; [apply H2 | reflexivity].
Qed.

Lemma no_corpus_no_documents_witness :
  documents (res (search
                    (mkEnv Scenario.students_tbl Scenario.wide_grades
                       None true) "s1")) = [].
Proof.
  apply (proj1 (no_corpus_no_documents
                  (mkEnv Scenario.students_tbl Scenario.wide_grades
                     None true) "s1" eq_refl
                  ltac:(repeat constructor))).
Defined.

End Matches.

(* ===================================================================== *)
(** ** Previews, query normalisation, extracted text *)
(* ===================================================================== *)

Section Previews.

Lemma length_take (n : nat) (s : string) : String.length (take n s) <= n.
Proof.
  unfold take. revert s. induction n as [|n IH]; intros s.
  - destruct s; simpl; lia.
  - destruct s as [|a s]; simpl; [lia|]. specialize (IH s). lia.
Qed.

Lemma length_preview_or_marker (text : string) :
  String.length (preview_or_marker text) <= 300.
Proof.
  unfold preview_or_marker. destruct (truthy text).
  - apply length_take.
  - vm_compute. lia.
Qed.

Lemma doc_step_grows_short (pdf : bool) (q sid_folder : string)
    (st : state) (f : file) :
  grows (fun h => String.length (preview h) <= 300) st
    (doc_step pdf q sid_folder st f).
Proof.
  unfold doc_step.
  destruct (String.eqb q (lower sid_folder)).
  { apply add_if_unseen_grows. vm_compute. lia. }
  destruct (contains q (lower (file_name f))).
  { apply add_if_unseen_grows. apply length_preview_or_marker. }
  destruct (truthy (extract_text_from_file pdf f)
            && contains q (lower (extract_text_from_file pdf f))).
  - apply add_if_unseen_grows. apply length_take.
  - apply grows_refl.
Qed.

(** X9.  No preview handed to the template is longer than 300 characters:
    it is a placeholder, the marker of an empty extraction, or the first
    300 characters of the extracted text. *)
Theorem previews_are_at_most_300_long (e : env)
    (q_arg filter_arg : option string) (h : hit) :
  In h (documents (index e q_arg filter_arg)) ->
  String.length (preview h) <= 300.
Proof.
  unfold index. destruct (truthy (strip (args_get q_arg "")));
    [|intros []].
  set (q := lower (strip (strip (args_get q_arg "")))).
  destruct (documents_apply_filters (args_get filter_arg "all")
              (res (search e q))) as [E|E]; rewrite E; [|intros []].
  assert (G : grows (fun h => String.length (preview h) <= 300)
                (mkState empty_results ∅) (search e q)).
  { unfold search.
    eapply grows_trans; [|eapply grows_trans].
    - eapply grows_weaken; [|apply students_pass_grows].
      intros h0 ->. vm_compute. lia.
    - apply grows_same. apply courses_pass_docs.
    - unfold documents_pass. destruct (unstructured e) as [root|];
        [|apply grows_refl].
      apply fold_left_grows. intros st [f|sid entries]; simpl;
        [apply grows_refl|].
      apply fold_left_grows. intros st' f. apply doc_step_grows_short. }
  destruct G as (new & En & F). unfold docs_of in En. simpl in En.
  rewrite En. rewrite List.Forall_forall in F. apply F.
Qed.

Lemma previews_are_at_most_300_long_witness :
  String.length
    (preview (mkHit "S1" "ada_notes.txt" "midterm review by Ada")) <= 300.
Proof.
  apply (previews_are_at_most_300_long Scenario.docs_only
           (Some "ada") None).
  vm_compute. left. reflexivity.
Defined.

(** *** [strip] is idempotent *)

Lemma lstrip_no_leading_space (s : string) : no_leading_space (lstrip s).
Proof.
  induction s as [|a s IH]; simpl; [exact I|].
  destruct (is_space a) eqn:E; [exact IH | simpl; exact E].
Qed.

Lemma lstrip_fixed (s : string) : no_leading_space s -> lstrip s = s.
Proof. destruct s as [|a s]; simpl; [reflexivity | intros ->; reflexivity]. Qed.

Lemma rstrip_no_leading_space (s : string) :
  no_leading_space s -> no_leading_space (rstrip s).
Proof.
  destruct s as [|a s]; simpl; [auto|]. intros E.
  destruct (rstrip s); [rewrite E|]; simpl; exact E.
Qed.

Lemma rstrip_idempotent (s : string) : rstrip (rstrip s) = rstrip s.
Proof.
  induction s as [|a s IH]; simpl; [reflexivity|].
  destruct (rstrip s) as [|b r] eqn:E.
  - destruct (is_space a) eqn:Ea; simpl; [reflexivity|].
    rewrite Ea. reflexivity.
  - change (rstrip (String a (String b r)) = String a (String b r)).
    simpl. simpl in IH. rewrite IH. reflexivity.
Qed.

Lemma strip_idempotent (s : string) : strip (strip s) = strip s.
Proof.
  unfold strip.
  rewrite (lstrip_fixed (rstrip (lstrip s))).
  - apply rstrip_idempotent.
  - apply rstrip_no_leading_space, lstrip_no_leading_space.
Qed.

Lemma truthy_lower (s : string) : truthy (lower s) = truthy s.
Proof. destruct s; reflexivity. Qed.

(** X10.  Two [q] arguments that differ only in letter case and in surrounding
    blanks give the same three lists, for every loaded state and filter. *)
Theorem query_is_trimmed_and_case_folded (e : env) (q1 q2 : string)
    (filter_arg : option string) :
  lower (strip q1) = lower (strip q2) ->
  index e (Some q1) filter_arg = index e (Some q2) filter_arg.
Proof.
  intros H. unfold index. simpl.
  rewrite !strip_idempotent.
  rewrite <- (truthy_lower (strip q1)), <- (truthy_lower (strip q2)).
  rewrite H. reflexivity.
Qed.

Lemma query_is_trimmed_and_case_folded_witness :
  index Scenario.deployment (Some "  ADA ") None
  = index Scenario.deployment (Some "ada") None.
Proof.
  apply query_is_trimmed_and_case_folded. reflexivity.
Defined.

(** *** The text of a readable file *)

Lemma append_empty_r (s : string) : String.append s "" = s.
Proof.
  induction s as [|a s IH]; [reflexivity|].
  change (String a (String.append s "") = String a s).
  f_equal. exact IH.
Qed.

Lemma append_assoc_str (a b c : string) :
  String.append (String.append a b) c = String.append a (String.append b c).
Proof.
  induction a as [|x a IH]; [reflexivity|].
  change (String x (String.append (String.append a b) c)
          = String x (String.append a (String.append b c))).
  f_equal. exact IH.
Qed.

Lemma pages_text_all (pages : list page) :
  forall text, ~ In PageRaises pages ->
  pages_text text pages
  = Ok (String.append text
          (fold_right String.append "" (map page_text pages))).
Proof.
  induction pages as [|p ps IH]; intros text Hn; simpl.
  - rewrite append_empty_r. reflexivity.
  - destruct p; simpl.
    + rewrite IH by (intros H; apply Hn; right; exact H).
      rewrite append_assoc_str. reflexivity.
    + rewrite IH by (intros H; apply Hn; right; exact H).
      rewrite append_assoc_str. reflexivity.
    + exfalso. apply Hn. left. reflexivity.
Qed.

(** X11.  On a file whose suffix is [.txt] in any letter case and whose read
    succeeds, [extract_text_from_file] returns the text read, whether
    PyPDF2 is installed or not.  On a [.pdf] file, with PyPDF2 installed,
    a reader that accepts the file and no failing page, it returns the
    texts of the pages joined in page order, a page without text adding
    nothing. *)
Theorem extract_text_of_a_readable_file (pdf : bool) (f : file) :
  (forall s : string,
      lower (path_suffix (file_name f)) = ".txt" ->
      as_text f = Some s ->
      extract_text_from_file pdf f = s)
  /\ (forall pages : list page,
        lower (path_suffix (file_name f)) = ".pdf" ->
        pdf = true ->
        as_pdf f = Some pages ->
        ~ In PageRaises pages ->
        extract_text_from_file pdf f
        = fold_right String.append "" (map page_text pages)).
Proof.
  split.
  - intros s Hs Ht. rewrite extract_of_body. unfold extract_body.
    rewrite Hs, Ht. reflexivity.
  - intros pages Hs -> Hp Hn. rewrite extract_of_body. unfold extract_body.
    rewrite Hs, Hp. simpl.
    rewrite (pages_text_all pages "" Hn). reflexivity.
Qed.

Lemma extract_text_of_a_readable_file_witness :
  extract_text_from_file true Samples.report = "Lab report"
  /\ extract_text_from_file false
       (mkFile "NOTES.TXT" (Some "hello") None) = "hello".
Proof.
  split.
  - apply (proj2 (extract_text_of_a_readable_file true Samples.report)
             [PageText "Lab "; PageNone; PageText "report"]);
      [reflexivity | reflexivity | reflexivity |].
    simpl. intuition discriminate.
  - apply (proj1 (extract_text_of_a_readable_file false
                    (mkFile "NOTES.TXT" (Some "hello") None)) "hello");
      reflexivity.
Defined.

End Previews.

(* ===================================================================== *)
(** ** Listings are sorted *)
(* ===================================================================== *)

Section Listing.

Lemma compare_not_gt_trans (s1 : string) :
  forall s2 s3,
    String.compare s1 s2 <> Gt -> String.compare s2 s3 <> Gt ->
    String.compare s1 s3 <> Gt.
Proof.
  induction s1 as [|a s1 IH]; intros [|b s2] [|c s3]; simpl;
    try congruence.
  destruct (Ascii.compare a b) eqn:Eab.
  - apply Ascii.compare_eq_iff in Eab. subst b.
    destruct (Ascii.compare a c); [apply IH | congruence | congruence].
  - intros _. destruct (Ascii.compare b c) eqn:Ebc.
    + apply Ascii.compare_eq_iff in Ebc. subst c. rewrite Eab. congruence.
    + intros _. unfold Ascii.compare in *.
      apply N.compare_lt_iff in Eab. apply N.compare_lt_iff in Ebc.
      assert (E : N.compare (N_of_ascii a) (N_of_ascii c) = Lt)
        by (apply N.compare_lt_iff; eapply N.lt_trans; eassumption).
      rewrite E. congruence.
    + congruence.
  - congruence.
Qed.

Lemma leb_trans (s1 s2 s3 : string) :
  String.leb s1 s2 = true -> String.leb s2 s3 = true ->
  String.leb s1 s3 = true.
Proof.
  unfold String.leb. intros H1 H2.
  pose proof (compare_not_gt_trans s1 s2 s3) as T.
  destruct (String.compare s1 s2); [| |discriminate];
    (destruct (String.compare s2 s3); [| |discriminate]);
    (destruct (String.compare s1 s3); [reflexivity | reflexivity|]);
    exfalso; apply T; congruence.
Qed.

Lemma In_insert_sorted {A : Type} (name_of : A -> string) (x y : A)
    (l : list A) :
  In y (insert_sorted name_of x l) <-> y = x \/ In y l.
Proof.
  induction l as [|a l IH]; simpl.
  - intuition.
  - destruct (String.leb (name_of x) (name_of a)); simpl.
    + intuition.
    + rewrite IH. intuition.
Qed.

Lemma In_sorted {A : Type} (name_of : A -> string) (y : A) (l : list A) :
  In y (sorted name_of l) <-> In y l.
Proof.
  induction l as [|a l IH]; simpl; [reflexivity|].
  rewrite In_insert_sorted, IH. intuition.
Qed.

Lemma insert_sorted_ordered {A : Type} (name_of : A -> string) (x : A)
    (l : list A) :
  StronglySorted (fun a b => String.leb (name_of a) (name_of b) = true) l ->
  StronglySorted (fun a b => String.leb (name_of a) (name_of b) = true)
    (insert_sorted name_of x l).
Proof.
  induction 1 as [|a l Hs IH Ha]; simpl.
  - constructor; constructor.
  - destruct (String.leb (name_of x) (name_of a)) eqn:E.
    + constructor; [constructor; assumption|].
      constructor; [exact E|].
      eapply List.Forall_impl; [|exact Ha]. intros b Hb. simpl in Hb.
      eapply leb_trans; eauto.
    + constructor; [exact IH|].
      apply List.Forall_forall. intros b Hb.
      apply In_insert_sorted in Hb. destruct Hb as [->|Hb].
      * destruct (String.leb_total (name_of a) (name_of x)) as [T|T];
          [exact T | congruence].
      * rewrite List.Forall_forall in Ha. apply Ha. exact Hb.
Qed.

Lemma sorted_ordered {A : Type} (name_of : A -> string) (l : list A) :
  StronglySorted (fun a b => String.leb (name_of a) (name_of b) = true)
    (sorted name_of l).
Proof.
  induction l as [|a l IH]; simpl; [constructor|].
  apply insert_sorted_ordered. exact IH.
Qed.

Lemma files_of_In (entries : list dirent) (f : file) :
  In f (files_of entries) <-> In (IsFile f) entries.
Proof.
  unfold files_of. rewrite in_flat_map. split.
  - intros (e & He & Hf). apply In_sorted in He.
    destruct e as [g|n]; simpl in Hf; [|destruct Hf].
    destruct Hf as [->|[]]. exact He.
  - intros H. exists (IsFile f). split; [apply In_sorted; exact H|].
    left. reflexivity.
Qed.

Lemma files_of_ordered (entries : list dirent) :
  StronglySorted (fun a b => String.leb a b = true)
    (map file_name (files_of entries)).
Proof.
  unfold files_of.
  induction (sorted_ordered dirent_name entries) as [|e l Hs IH He];
    simpl; [constructor|].
  destruct e as [f|n]; simpl; [|exact IH].
  constructor; [exact IH|].
  apply List.Forall_forall. intros name Hn.
  apply in_map_iff in Hn. destruct Hn as (g & <- & Hg).
  apply in_flat_map in Hg. destruct Hg as (e' & He' & Hg).
  destruct e' as [g'|n']; simpl in Hg; [|destruct Hg].
  destruct Hg as [->|[]].
  rewrite List.Forall_forall in He. apply (He (IsFile g) He').
Qed.

(** X12.  [list_student_docs] lists the regular files of the student's folder,
    all of them and nothing else (no sub-folder), in increasing order of
    their names; it is empty when the folder does not exist or is not a
    directory. *)
Theorem list_student_docs_is_the_sorted_folder (c : corpus)
    (student_id : string) :
  StronglySorted (fun a b => String.leb a b = true)
    (list_student_docs c student_id)
  /\ (forall entries : list dirent,
        resolve_folder c (strip student_id) = Some entries ->
        forall name : string,
          In name (list_student_docs c student_id)
          <-> exists f, In (IsFile f) entries /\ file_name f = name)
  /\ (resolve_folder c (strip student_id) = None ->
      list_student_docs c student_id = []).
Proof.
  unfold list_student_docs. split; [|split].
  - destruct (resolve_folder c (strip student_id)) as [entries|];
      [apply files_of_ordered | constructor].
  - intros entries ->. intros name. rewrite in_map_iff. split.
    + intros (f & E & H). exists f. split; [|exact E].
      apply files_of_In. exact H.
    + intros (f & H & E). exists f. split; [exact E|].
      apply files_of_In. exact H.
  - intros ->. reflexivity.
Qed.

Lemma list_student_docs_is_the_sorted_folder_witness :
  list_student_docs Samples.library " S2 " = ["report.pdf"; "s1_essay.txt"]
  /\ (In "report.pdf" (list_student_docs Samples.library " S2 ")
      <-> exists f,
            In (IsFile f)
              [IsFile Samples.report; IsDir "drafts"; IsFile Scenario.essay]
            /\ file_name f = "report.pdf").
Proof.
  split; [reflexivity|].
  apply (proj1 (proj2 (list_student_docs_is_the_sorted_folder
                         Samples.library " S2 "))).
  reflexivity.
Defined.

End Listing.

(* ===================================================================== *)
(** ** Nothing that matches is left out *)
(* ===================================================================== *)

Section Completeness.

Lemma covered_grows (P : hit -> Prop) (k : string * string)
    (st st' : state) :
  grows P st st' -> covered k st -> covered k st'.
Proof.
  intros (new & E & _) (h & Hh & Hk). exists h. split; [|exact Hk].
  rewrite E. apply in_app_iff. left. exact Hh.
Qed.

Lemma add_if_unseen_covers (h : hit) (st : state) :
  seen_sound st -> covered (key_of h) (add_if_unseen h st).
Proof.
  intros S. unfold add_if_unseen.
  destruct (decide (key_of h ∈ seen_docs st)) as [Hin|Hnin].
  - apply S. exact Hin.
  - exists h. split; [|reflexivity]. unfold docs_of. simpl.
    apply in_app_iff. right. left. reflexivity.
Qed.

Lemma add_if_unseen_sound (h : hit) (st : state) :
  seen_sound st -> seen_sound (add_if_unseen h st).
Proof.
  intros S k Hk.
  pose proof (add_if_unseen_covers h st S) as C.
  unfold add_if_unseen in *.
  destruct (decide (key_of h ∈ seen_docs st)) as [Hin|Hnin].
  - apply S. exact Hk.
  - simpl in Hk. apply elem_of_union in Hk. destruct Hk as [Hk|Hk].
    + apply elem_of_singleton in Hk. subst k. exact C.
    + destruct (S k Hk) as (h' & Hh' & E). exists h'. split; [|exact E].
      unfold docs_of. simpl. apply in_app_iff. left. exact Hh'.
Qed.

Lemma add_student_docs_sound (c : corpus) (sid : string) (st : state) :
  seen_sound st -> seen_sound (add_student_docs c sid st).
Proof.
  unfold add_student_docs. apply fold_left_inv.
  intros st' d. apply add_if_unseen_sound.
Qed.

Lemma student_step_sound (c : corpus) (q : string) (cols : list string)
    (st : state) (r : list cell) :
  seen_sound st -> seen_sound (student_step c q cols st r).
Proof.
  intros S. unfold student_step. destruct (student_matches q cols r);
    [|exact S].
  apply add_student_docs_sound. exact S.
Qed.

Lemma students_pass_sound (e : env) (q : string) (st : state) :
  seen_sound st -> seen_sound (students_pass e q st).
Proof.
  unfold students_pass. apply fold_left_inv.
  intros st' r. apply student_step_sound.
Qed.

Lemma courses_pass_sound (e : env) (q : string) (st : state) :
  seen_sound st -> seen_sound (courses_pass e q st).
Proof.
  intros S k Hk. destruct (courses_pass_docs e q st) as [E1 E2].
  rewrite E2 in Hk. destruct (S k Hk) as (h & Hh & E).
  exists h. split; [rewrite E1; exact Hh | exact E].
Qed.

Lemma doc_step_sound (pdf : bool) (q sid_folder : string) (st : state)
    (f : file) :
  seen_sound st -> seen_sound (doc_step pdf q sid_folder st f).
Proof.
  intros S. unfold doc_step.
  destruct (String.eqb q (lower sid_folder));
    [apply add_if_unseen_sound; exact S|].
  destruct (contains q (lower (file_name f)));
    [apply add_if_unseen_sound; exact S|].
  destruct (truthy (extract_text_from_file pdf f)
            && contains q (lower (extract_text_from_file pdf f)));
    [apply add_if_unseen_sound; exact S | exact S].
Qed.

Lemma folder_step_sound (pdf : bool) (q : string) (st : state)
    (x : root_entry) :
  seen_sound st -> seen_sound (folder_step pdf q st x).
Proof.
  destruct x as [f|sid entries]; simpl; [auto|].
  apply fold_left_inv. intros st' f. apply doc_step_sound.
Qed.

Lemma seen_sound_init : seen_sound (mkState empty_results ∅).
Proof. intros k Hk. exfalso. revert Hk. apply not_elem_of_empty. Qed.

(** A loop over [l] reaches [Q] when the iteration of [x] establishes it
    and the other iterations keep it. *)
Lemma fold_left_reaches {A : Type} (I Q : state -> Prop)
    (f : state -> A -> state) (x : A) (l : list A) :
  (forall st y, I st -> I (f st y)) ->
  (forall st, I st -> Q (f st x)) ->
  (forall st y, I st -> Q st -> Q (f st y)) ->
  In x l -> forall st, I st -> Q (fold_left f l st).
Proof.
  intros HI Hx HQ.
  assert (Keep : forall l st, I st -> Q st -> Q (fold_left f l st)).
  { intros l0. induction l0 as [|y l0 IH]; intros st Hi Hq; simpl; auto. }
  induction l as [|y l IH]; intros Hin st Hi; [destruct Hin|].
  simpl. destruct Hin as [->|Hin].
  - apply Keep; auto.
  - apply IH; auto.
Qed.

Lemma add_student_docs_covers (c : corpus) (sid d : string) (st : state) :
  seen_sound st -> In d (list_student_docs c sid) ->
  covered (sid, d) (add_student_docs c sid st).
Proof.
  intros S Hd. unfold add_student_docs.
  apply (fold_left_reaches seen_sound (covered (sid, d))
           (fun st d => add_if_unseen (mkHit sid d student_document) st) d);
    auto.
  - intros st' y. apply add_if_unseen_sound.
  - intros st' S'.
    apply (add_if_unseen_covers (mkHit sid d student_document) st' S').
  - intros st' y _. apply (covered_grows (fun _ => True)).
    apply add_if_unseen_grows. exact I.
Qed.

(** X13.  Every file of the folder of a matching student is among the documents
    of the request, with the placeholder preview, and the student's record
    is among the students: a query equal to a student identifier returns
    the student and the whole listing of the folder. *)
Theorem matching_student_brings_all_documents (e : env) (q : string)
    (r : list cell) (d : string) :
  In r (rows (students_df e)) ->
  student_matches q (columns (students_df e)) r = true ->
  In d (list_student_docs (unstructured e)
          (field (columns (students_df e)) r "student_id")) ->
  In (mkHit (field (columns (students_df e)) r "student_id") d
        "(student document)")
     (documents (res (search e q)))
  /\ In (to_dict (columns (students_df e)) r)
        (students (res (search e q))).
Proof.
  intros Hr Hm Hd. split.
  - set (sid := field (columns (students_df e)) r "student_id") in *.
    set (st1 := students_pass e q (mkState empty_results ∅)).
    assert (C : covered (sid, d) st1).
    { unfold st1, students_pass.
      apply (fold_left_reaches seen_sound (covered (sid, d))
               (student_step (unstructured e) q (columns (students_df e)))
               r); auto.
      - intros st y. apply student_step_sound.
      - intros st S. unfold student_step. rewrite Hm.
        apply add_student_docs_covers; [exact S | exact Hd].
      - intros st y _. apply (covered_grows _ _ _ _
                                (student_step_grows _ _ _ _ _)).
      - apply seen_sound_init. }
    destruct C as (h & Hh & Hk).
    destruct (students_pass_grows e q (mkState empty_results ∅))
      as (n1 & E1 & F1). fold st1 in E1. simpl in E1.
    rewrite List.Forall_forall in F1.
    assert (Hp : preview h = student_document)
      by (apply F1; rewrite <- E1; exact Hh).
    assert (Eh : h = mkHit sid d student_document).
    { destruct h as [a b p]. unfold key_of in Hk. simpl in *.
      inversion Hk. subst. reflexivity. }
    subst h.
    destruct (courses_pass_docs e q st1) as [E2 _].
    destruct (documents_pass_grows e q (courses_pass e q st1))
      as (n3 & E3 & _).
    unfold search. fold st1. unfold docs_of in *.
    rewrite E3, E2. apply in_app_iff. left. exact Hh.
  - rewrite (proj1 (search_tables e q)). apply in_map.
    apply filter_In. split; assumption.
Qed.

Lemma matching_student_brings_all_documents_witness :
  In (mkHit "S1" "ada_notes.txt" "(student document)")
     (documents (res (search Samples.campus "s1"))).
Proof.
  apply (proj1 (matching_student_brings_all_documents Samples.campus "s1"
                  [Str "S1"; Str "Ada Lovelace"; Str "Mathematics";
                   Str "al@uni.example"] "ada_notes.txt"
                  ltac:(left; reflexivity) eq_refl
                  ltac:(left; reflexivity))).
Defined.

Lemma doc_step_covers (pdf : bool) (q sid_folder : string) (st : state)
    (f : file) :
  seen_sound st -> doc_matches pdf q sid_folder f = true ->
  covered (sid_folder, file_name f) (doc_step pdf q sid_folder st f).
Proof.
  intros S M. unfold doc_matches in M. unfold doc_step.
  destruct (String.eqb q (lower sid_folder)).
  { apply (add_if_unseen_covers
             (mkHit sid_folder (file_name f) student_document) st S). }
  destruct (contains q (lower (file_name f))).
  { apply (add_if_unseen_covers
             (mkHit sid_folder (file_name f)
                (preview_or_marker (extract_text_from_file pdf f))) st S). }
  simpl in M. rewrite M.
  apply (add_if_unseen_covers
           (mkHit sid_folder (file_name f)
              (take 300 (extract_text_from_file pdf f))) st S).
Qed.

(** X14.  Every regular file of every folder of [UNSTRUCTURED_DIR] whose folder
    name is the query, whose name contains the query or whose extracted
    text contains it, is among the documents of the request. *)
Theorem matching_file_is_listed (e : env) (q : string)
    (root : list root_entry) (sid : string) (entries : list dirent)
    (f : file) :
  unstructured e = Some root ->
  In (RootDir sid entries) root ->
  In (IsFile f) entries ->
  doc_matches (pdf_reader e) q sid f = true ->
  exists h : hit,
    In h (documents (res (search e q)))
    /\ student_id h = sid /\ filename h = file_name f.
Proof.
  intros Hroot Hdir Hf M.
  assert (C : covered (sid, file_name f) (search e q)).
  { unfold search, documents_pass. rewrite Hroot.
    apply (fold_left_reaches seen_sound (covered (sid, file_name f))
             (folder_step (pdf_reader e) q) (RootDir sid entries)).
    - intros st y. apply folder_step_sound.
    - intros st S. simpl.
      apply (fold_left_reaches seen_sound (covered (sid, file_name f))
               (doc_step (pdf_reader e) q sid) f).
      + intros st' y. apply doc_step_sound.
      + intros st' S'. apply doc_step_covers; assumption.
      + intros st' y _. apply (covered_grows _ _ _ _
                                 (doc_step_grows _ _ _ _ _)).
      + apply files_of_In. exact Hf.
      + exact S.
    - intros st y _. apply (covered_grows _ _ _ _
                              (folder_step_grows _ _ _ _)).
    - apply In_sorted. exact Hdir.
    - apply courses_pass_sound, students_pass_sound, seen_sound_init. }
  destruct C as (h & Hh & Hk). exists h. split; [exact Hh|].
  unfold key_of in Hk. inversion Hk. split; reflexivity.
Qed.

Lemma matching_file_is_listed_witness :
  exists h : hit,
    In h (documents (res (search Samples.campus "lab")))
    /\ student_id h = "S2" /\ filename h = "report.pdf".
Proof.
  apply (matching_file_is_listed Samples.campus "lab"
           [RootFile (mkFile "README.txt" (Some "read me") None);
            RootDir "S2" [IsFile Samples.report; IsDir "drafts";
                          IsFile Scenario.essay];
            RootDir "S1" [IsFile Scenario.notes]]
           "S2"
           [IsFile Samples.report; IsDir "drafts"; IsFile Scenario.essay]
           Samples.report eq_refl).
  - right. left. reflexivity.
  - left. reflexivity.
  - vm_compute. reflexivity.
Defined.

End Completeness.

(* ===================================================================== *)
(** ** The download route *)
(* ===================================================================== *)

Section Downloads.

Lemma find_by_name {A : Type} (name_of : A -> string) (x : A)
    (l : list A) :
  List.NoDup (map name_of l) -> In x l ->
  List.find (fun y => String.eqb (name_of y) (name_of x)) l = Some x.
Proof.
  induction l as [|a l IH]; intros Hnd Hin; [destruct Hin|].
  simpl in Hnd. apply NoDup_cons_iff in Hnd. destruct Hnd as [Ha Hl].
  simpl. destruct (String.eqb (name_of a) (name_of x)) eqn:E.
  - destruct Hin as [->|Hin]; [reflexivity|].
    apply String.eqb_eq in E. exfalso. apply Ha. rewrite E.
    apply in_map. exact Hin.
  - destruct Hin as [->|Hin].
    + rewrite String.eqb_refl in E. discriminate.
    + apply IH; assumption.
Qed.

Lemma names_ok_nonempty {A : Type} (name_of : A -> string) (x : A)
    (l : list A) :
  names_ok name_of l -> In x l -> String.eqb (name_of x) "" = false.
Proof.
  intros [_ F] Hin. rewrite List.Forall_forall in F.
  apply String.eqb_neq. apply F. exact Hin.
Qed.

Lemma send_from_file (entries : list dirent) (f : file) :
  names_ok dirent_name entries -> In (IsFile f) entries ->
  send_from entries (file_name f) = Attachment f.
Proof.
  intros Hok Hin. unfold send_from.
  pose proof (names_ok_nonempty dirent_name (IsFile f) entries Hok Hin)
    as E. simpl in E. rewrite E.
  pose proof (find_by_name dirent_name (IsFile f) entries (proj1 Hok) Hin)
    as F. simpl in F. rewrite F.
  reflexivity.
Qed.

Lemma names_ok_as_dirent (root : list root_entry) :
  names_ok root_name root -> names_ok dirent_name (map as_dirent root).
Proof.
  intros [Hnd F]. split.
  - rewrite map_map.
    rewrite (map_ext (fun x => dirent_name (as_dirent x)) root_name);
      [exact Hnd|].
    intros [f|n es]; reflexivity.
  - apply List.Forall_forall. intros x Hx.
    apply in_map_iff in Hx. destruct Hx as (y & <- & Hy).
    rewrite List.Forall_forall in F.
    destruct y as [f|n es]; apply (F _ Hy).
Qed.

Lemma files_resolved (c : corpus) (sid : string) (entries : list dirent)
    (f : file) :
  corpus_ok c -> resolve_folder c sid = Some entries ->
  In (IsFile f) entries ->
  files c sid (file_name f) = Attachment f.
Proof.
  intros Hok Hres Hin. destruct c as [root|]; [|discriminate].
  simpl in Hok. destruct Hok as [Hroot Hdirs].
  unfold resolve_folder in Hres. unfold files.
  destruct (String.eqb sid "").
  - inversion Hres. subst entries.
    apply send_from_file; [apply names_ok_as_dirent; exact Hroot | exact Hin].
  - destruct (List.find (fun x => String.eqb (root_name x) sid) root)
      as [[g|n es]|] eqn:Ef; try discriminate.
    inversion Hres. subst es.
    apply find_some in Ef. destruct Ef as [Hn _].
    rewrite List.Forall_forall in Hdirs.
    apply send_from_file; [apply (Hdirs _ Hn) | exact Hin].
Qed.

Lemma resolve_root_dir (root : list root_entry) (sid : string)
    (entries : list dirent) :
  names_ok root_name root -> In (RootDir sid entries) root ->
  resolve_folder (Some root) sid = Some entries.
Proof.
  intros Hok Hin. unfold resolve_folder.
  pose proof (names_ok_nonempty root_name (RootDir sid entries) root
                Hok Hin) as E. simpl in E. rewrite E.
  pose proof (find_by_name root_name (RootDir sid entries) root
                (proj1 Hok) Hin) as F. simpl in F. rewrite F.
  reflexivity.
Qed.

Lemma fold_left_grows_in {A : Type} (P : hit -> Prop)
    (f : state -> A -> state) (l : list A) :
  (forall st x, In x l -> grows P st (f st x)) ->
  forall st, grows P st (fold_left f l st).
Proof.
  induction l as [|x l IH]; intros Hf st; simpl.
  - apply grows_refl.
  - eapply grows_trans.
    + apply Hf. left. reflexivity.
    + apply IH. intros st' y Hy. apply Hf. right. exact Hy.
Qed.

(** X15.  For a student identifier and a file name that each name a single
    path component, what the route sends is a regular file of the folder
    that the identifier names, under the name asked for; it never sends a
    folder, nor a file of another folder. *)
Theorem files_sends_only_files_of_the_folder (c : corpus)
    (student_id filename : string) (f : file) :
  plain_name student_id = true ->
  plain_name filename = true ->
  files c student_id filename = Attachment f ->
  file_name f = filename
  /\ exists entries,
       resolve_folder c student_id = Some entries
       /\ In (IsFile f) entries.
Proof.
  intros _ _.
  assert (S : forall entries,
             send_from entries filename = Attachment f ->
             file_name f = filename /\ In (IsFile f) entries).
  { intros entries. unfold send_from.
    destruct (String.eqb filename ""); [discriminate|].
    destruct (List.find _ entries) as [[g|n]|] eqn:Ef; try discriminate.
    intros H. inversion H. subst g.
    apply find_some in Ef. destruct Ef as [Hin E].
    apply String.eqb_eq in E. split; [exact E | exact Hin]. }
  unfold files, resolve_folder. destruct c as [root|]; [|discriminate].
  destruct (String.eqb student_id "").
  - intros H. destruct (S _ H) as [E Hin]. split; [exact E|].
    eexists. split; [reflexivity | exact Hin].
  - destruct (List.find _ root) as [[g|n es]|]; try discriminate.
    + destruct (String.eqb filename ""); discriminate.
    + intros H. destruct (S _ H) as [E Hin]. split; [exact E|].
      exists es. split; [reflexivity | exact Hin].
Qed.

Lemma files_sends_only_files_of_the_folder_witness :
  file_name Samples.report = "report.pdf"
  /\ exists entries,
       resolve_folder Samples.library "S2" = Some entries
       /\ In (IsFile Samples.report) entries.
Proof.
  apply (files_sends_only_files_of_the_folder Samples.library "S2"
           "report.pdf" Samples.report);
    reflexivity.
Defined.

(** X16.  When the names inside [UNSTRUCTURED_DIR] and inside each of its folders
    are distinct and not empty, every document that a request returns can
    be downloaded: the route, called with the [student_id] and the
    [filename] of the hit, sends a file of that name. *)
Theorem every_hit_can_be_downloaded (e : env)
    (q_arg filter_arg : option string) (h : hit) :
  corpus_ok (unstructured e) ->
  In h (documents (index e q_arg filter_arg)) ->
  exists f : file,
    files (unstructured e) (student_id h) (filename h) = Attachment f
    /\ file_name f = filename h.
Proof.
  intros Hok. unfold index.
  destruct (truthy (strip (args_get q_arg ""))); [|intros []].
  set (q := lower (strip (strip (args_get q_arg "")))).
  destruct (documents_apply_filters (args_get filter_arg "all")
              (res (search e q))) as [E|E]; rewrite E; [|intros []].
  set (P := fun h : hit =>
              exists f : file,
                files (unstructured e) (student_id h) (filename h)
                = Attachment f /\ file_name f = filename h).
  assert (G1 : forall st, grows P st (students_pass e q st)).
  { intros st0. unfold students_pass. apply fold_left_grows. intros st r.
    unfold student_step.
    destruct (student_matches q (columns (students_df e)) r);
      [|apply grows_refl].
    match goal with
    | |- grows _ _ (add_student_docs _ _ ?m) =>
        apply (grows_trans P st m); [apply grows_same; reflexivity|]
    end.
    unfold add_student_docs.
    apply fold_left_grows_in. intros st' d Hd.
    apply add_if_unseen_grows. unfold P. simpl.
    unfold list_student_docs in Hd.
    unfold field in Hd. rewrite strip_idempotent in Hd.
    fold (field (columns (students_df e)) r "student_id") in Hd.
    destruct (resolve_folder (unstructured e)
                (field (columns (students_df e)) r "student_id"))
      as [entries|] eqn:Er; [|destruct Hd].
    apply in_map_iff in Hd. destruct Hd as (f & <- & Hf).
    apply files_of_In in Hf. exists f. split; [|reflexivity].
    eapply files_resolved; eauto. }
  assert (G3 : forall st, grows P st (documents_pass e q st)).
  { intros st0. unfold documents_pass.
    destruct (unstructured e) as [root|] eqn:Hroot; [|apply grows_refl].
    apply fold_left_grows_in. intros st x Hx. apply In_sorted in Hx.
    destruct x as [g|sid entries]; simpl; [apply grows_refl|].
    apply fold_left_grows_in. intros st' f Hf. apply files_of_In in Hf.
    assert (D : forall p, P (mkHit sid (file_name f) p)).
    { intros p. unfold P. simpl. exists f. split; [|reflexivity].
      apply (files_resolved (Some root) sid entries f Hok);
        [|exact Hf].
      apply resolve_root_dir; [apply Hok | exact Hx]. }
    unfold doc_step.
    destruct (String.eqb q (lower sid));
      [apply add_if_unseen_grows; apply D|].
    destruct (contains q (lower (file_name f)));
      [apply add_if_unseen_grows; apply D|].
    destruct (truthy (extract_text_from_file (pdf_reader e) f)
              && contains q
                   (lower (extract_text_from_file (pdf_reader e) f)));
      [apply add_if_unseen_grows; apply D | apply grows_refl]. }
  assert (G : grows P (mkState empty_results ∅) (search e q)).
  { unfold search.
    eapply grows_trans; [apply G1|].
    eapply grows_trans; [|apply G3].
    apply grows_same. apply courses_pass_docs. }
  destruct G as (new & En & F). unfold docs_of in En. simpl in En.
  rewrite En. rewrite List.Forall_forall in F. apply F.
Qed.

Lemma every_hit_can_be_downloaded_witness :
  exists f : file,
    files Samples.library "S2" "report.pdf" = Attachment f
    /\ file_name f = "report.pdf".
Proof.
  apply (every_hit_can_be_downloaded Samples.campus (Some "lab") None
           (mkHit "S2" "report.pdf" "Lab report")).
  - simpl. repeat split; repeat constructor; simpl;
      intuition discriminate.
  - vm_compute. left. reflexivity.
Defined.

End Downloads.

(* ===================================================================== *)
(** ** Nothing is returned that does not match *)
(* ===================================================================== *)

Section Soundness.

(** X17.  Every document of a request has a reason to be there.  Either a row of
    [students_df] passes the test of line 116, the hit carries its
    identifier, the name of a file of its folder and the placeholder; or
    the hit names a regular file of a folder of [UNSTRUCTURED_DIR] that
    passes one of the tests of lines 157, 168 and 181, and its preview is
    the placeholder when the folder is the query, the first 300 characters
    of the text of that very file (or the marker of an empty text) when the
    file name contains the query, and the first 300 characters of the text
    otherwise. *)
Theorem every_hit_has_a_match (e : env) (q : string) (h : hit) :
  In h (documents (res (search e q))) ->
  (exists r : list cell,
      In r (rows (students_df e))
      /\ student_matches q (columns (students_df e)) r = true
      /\ student_id h = field (columns (students_df e)) r "student_id"
      /\ In (filename h) (list_student_docs (unstructured e) (student_id h))
      /\ preview h = "(student document)")
  \/ (exists (root : list root_entry) (entries : list dirent) (f : file),
        unstructured e = Some root
        /\ In (RootDir (student_id h) entries) root
        /\ In (IsFile f) entries
        /\ file_name f = filename h
        /\ doc_matches (pdf_reader e) q (student_id h) f = true
        /\ preview h
           = if String.eqb q (lower (student_id h)) then "(student document)"
             else if contains q (lower (file_name f))
                  then preview_or_marker
                         (extract_text_from_file (pdf_reader e) f)
                  else take 300 (extract_text_from_file (pdf_reader e) f)).
Proof.
  set (P1 := fun h : hit =>
               exists r : list cell,
                 In r (rows (students_df e))
                 /\ student_matches q (columns (students_df e)) r = true
                 /\ student_id h
                    = field (columns (students_df e)) r "student_id"
                 /\ In (filename h)
                      (list_student_docs (unstructured e) (student_id h))
                 /\ preview h = "(student document)").
  set (P2 := fun h : hit =>
               exists (root : list root_entry) (entries : list dirent)
                      (f : file),
                 unstructured e = Some root
                 /\ In (RootDir (student_id h) entries) root
                 /\ In (IsFile f) entries
                 /\ file_name f = filename h
                 /\ doc_matches (pdf_reader e) q (student_id h) f = true
                 /\ preview h
                    = if String.eqb q (lower (student_id h))
                      then "(student document)"
                      else if contains q (lower (file_name f))
                           then preview_or_marker
                                  (extract_text_from_file (pdf_reader e) f)
                           else take 300
                                  (extract_text_from_file (pdf_reader e) f)).
  assert (G1 : forall st, grows P1 st (students_pass e q st)).
  { intros st0. unfold students_pass. apply fold_left_grows_in.
    intros st r Hr. unfold student_step.
    destruct (student_matches q (columns (students_df e)) r) eqn:Hm;
      [|apply grows_refl].
    match goal with
    | |- grows _ _ (add_student_docs _ _ ?m) =>
        apply (grows_trans P1 st m); [apply grows_same; reflexivity|]
    end.
    unfold add_student_docs. apply fold_left_grows_in. intros st' d Hd.
    apply add_if_unseen_grows. exists r. simpl.
    repeat split; assumption. }
  assert (G3 : forall st, grows P2 st (documents_pass e q st)).
  { intros st0. unfold documents_pass.
    destruct (unstructured e) as [root|] eqn:Hroot; [|apply grows_refl].
    apply fold_left_grows_in. intros st x Hx. apply In_sorted in Hx.
    destruct x as [g|sid entries]; simpl; [apply grows_refl|].
    apply fold_left_grows_in. intros st' f Hf. apply files_of_In in Hf.
    unfold doc_step.
    destruct (String.eqb q (lower sid)) eqn:E1.
    { apply add_if_unseen_grows. exists root, entries, f. simpl.
      unfold doc_matches. rewrite E1. repeat split; auto. }
    destruct (contains q (lower (file_name f))) eqn:E2.
    { apply add_if_unseen_grows. exists root, entries, f. simpl.
      unfold doc_matches. rewrite E1, E2. repeat split; auto. }
    destruct (truthy (extract_text_from_file (pdf_reader e) f)
              && contains q
                   (lower (extract_text_from_file (pdf_reader e) f)))
      eqn:E3; [|apply grows_refl].
    apply add_if_unseen_grows. exists root, entries, f. simpl.
    unfold doc_matches. rewrite E1, E2, E3. repeat split; auto. }
  destruct (G1 (mkState empty_results ∅)) as (n1 & En1 & F1).
  set (st1 := students_pass e q (mkState empty_results ∅)) in *.
  destruct (courses_pass_docs e q st1) as [E2 _].
  destruct (G3 (courses_pass e q st1)) as (n3 & En3 & F3).
  unfold search. fold st1. unfold docs_of in *. simpl in En1.
  rewrite En3, E2, En1. intros Hin. apply in_app_iff in Hin.
  rewrite List.Forall_forall in F1, F3.
  destruct Hin as [Hin|Hin]; [left; apply F1 | right; apply F3]; exact Hin.
Qed.

Lemma every_hit_has_a_match_witness :
  preview (mkHit "S2" "report.pdf" "Lab report") = "(student document)"
  \/ exists (root : list root_entry) (entries : list dirent) (f : file),
       unstructured Samples.campus = Some root
       /\ In (RootDir "S2" entries) root
       /\ In (IsFile f) entries
       /\ file_name f = "report.pdf"
       /\ doc_matches true "lab" "S2" f = true
       /\ "Lab report"
          = if contains "lab" (lower (file_name f))
            then preview_or_marker (extract_text_from_file true f)
            else take 300 (extract_text_from_file true f).
Proof.
  destruct (every_hit_has_a_match Samples.campus "lab"
              (mkHit "S2" "report.pdf" "Lab report"))
    as [(r & _ & _ & _ & _ & H)|H].
  - vm_compute. left. reflexivity.
  - left. exact H.
  - right. exact H.
Defined.

End Soundness.
